(** * statistics-heart-disease: a shallow embedding of [exercise1.py] and
      [exercise2.py]

    The two scripts are straight-line NumPy / pandas code guarded by input
    validation.  The embedding keeps what the Python code has:

    - dynamically typed arguments ([value]), so that every [isinstance]
      test of the source is a real test;
    - a store of mutable objects (NumPy arrays and Python lists) addressed
      by references, so that "the argument is not modified" is a statement
      about the store and not a triviality;
    - the process-wide random generator of [numpy.random] as part of the
      program state;
    - Python exceptions as an error outcome.

    Floating-point numbers are represented by exact rationals ([Q]): the
    development speaks about the real-number reading of the arithmetic
    (no rounding, no NaN, no infinities). *)

From Stdlib Require Import QArith Qround Sorted Lqa.
From stdpp Require Import gmap strings list.

(** ** The Python run-time model *)

Module Py.

(** Exceptions raised by the two scripts. *)
Inductive exn : Type :=
| TypeError
| ValueError
| IndexError
| ZeroDivisionError.

(** Outcome of running a piece of code.  [OutOfFuel] is not a Python
    outcome: it is what a bounded loop of the model answers when its
    bound is reached, and the theorems show that it never is. *)
Inductive result (A : Type) : Type :=
| Ok (a : A)
| Raise (e : exn)
| OutOfFuel.
Arguments Ok {A} a.
Arguments Raise {A} e.
Arguments OutOfFuel {A}.

Definition loc : Type := nat.

(** Arguments as the caller passes them. *)
Inductive value : Type :=
| VNone
| VBool (b : bool)
| VInt (z : Z)
| VFloat (q : Q)
| VStr (s : string)
| VRef (l : loc).

(** Mutable objects living in the store. *)
Inductive obj : Type :=
| Ndarray (data : list Q)
| PyList (items : list Q).

(** State of [numpy.random]'s global generator: the outputs the
    generator will produce (a function of the seed, fixed once the seed
    is) and how many of them have been consumed. *)
Record RandomState : Type := mkRandomState {
  rk_raw : nat -> nat;
  rk_gauss : nat -> Q;
  rk_pos : nat
}.

(** The generator after [k] more draws. *)
Definition advance (r : RandomState) (k : nat) : RandomState :=
  mkRandomState (rk_raw r) (rk_gauss r) (rk_pos r + k).

Record state : Type := mkState {
  heap : gmap loc obj;
  rng : RandomState
}.

(** Computations: state passing with an error outcome. *)
Definition M (A : Type) : Type := state -> result A * state.

Definition ret {A} (a : A) : M A := fun st => (Ok a, st).

Definition raise {A} (e : exn) : M A := fun st => (Raise e, st).

Definition bind {A B} (m : M A) (k : A -> M B) : M B :=
  fun st =>
    match m st with
    | (Ok a, st') => k a st'
    | (Raise e, st') => (Raise e, st')
    | (OutOfFuel, st') => (OutOfFuel, st')
    end.

Declare Scope py_scope.
Delimit Scope py_scope with py.
Notation "'let!' x ':=' m 'in' k" := (bind m (fun x => k))
  (at level 10, x name, m at level 100, k at level 200) : py_scope.
Notation "'do!' m 'in' k" := (bind m (fun _ => k))
  (at level 10, m at level 100, k at level 200) : py_scope.
Local Open Scope py_scope.

(** Store primitives. *)
Definition alloc (o : obj) : M loc :=
  fun st =>
    let l := fresh (dom (heap st)) in
    (Ok l, mkState (<[l := o]> (heap st)) (rng st)).

Definition load (l : loc) : M (option obj) :=
  fun st => (Ok (heap st !! l), st).

Definition store (l : loc) (o : obj) : M unit :=
  fun st => (Ok tt, mkState (<[l := o]> (heap st)) (rng st)).

(** [isinstance(v, np.ndarray)], returning the array's contents on
    success; the scripts raise [TypeError] on failure. *)
Definition expect_ndarray (v : value) : M (list Q) :=
  match v with
  | VRef l =>
      let! o := load l in
      match o with
      | Some (Ndarray d) => ret d
      | _ => raise TypeError
      end
  | _ => raise TypeError
  end.

Definition load_list (l : loc) : M (list Q) :=
  let! o := load l in
  match o with
  | Some (PyList xs) => ret xs
  | _ => raise TypeError
  end.

(** [isinstance(v, int)]: [bool] is a subclass of [int]. *)
Definition isinstance_int (v : value) : bool :=
  match v with
  | VInt _ | VBool _ => true
  | _ => false
  end.

(** [isinstance(v, (int, float))]. *)
Definition isinstance_int_float (v : value) : bool :=
  match v with
  | VInt _ | VBool _ | VFloat _ => true
  | _ => false
  end.

(** Numeric reading of an [int] / [float] / [bool] argument. *)
Definition to_Z (v : value) : Z :=
  match v with
  | VInt z => z
  | VBool true => 1
  | _ => 0
  end.

Definition to_Q (v : value) : Q :=
  match v with
  | VFloat q => q
  | _ => inject_Z (to_Z v)
  end.

Definition Qlt_bool (x y : Q) : bool := negb (Qle_bool y x).

(** [a[i]] on an array object. *)
Definition getitem (l : loc) (i : nat) : M Q :=
  let! o := load l in
  match o with
  | Some (Ndarray d) | Some (PyList d) =>
      match d !! i with
      | Some x => ret x
      | None => raise IndexError
      end
  | None => raise TypeError
  end.

(** [lst.append(x)]: in-place update of the list object. *)
Definition list_append (l : loc) (x : Q) : M unit :=
  let! xs := load_list l in
  store l (PyList (xs ++ [x])).

(** [for x in lst: body(x)].  Python's list iterator keeps an index and
    re-reads the list object at each step, so a body that changed the
    list would be observed; the model does the same. *)
Fixpoint for_list_from (fuel : nat) (l : loc) (i : nat)
    (body : Q -> M unit) : M unit :=
  match fuel with
  | O => fun st => (OutOfFuel, st)
  | S fuel' =>
      let! xs := load_list l in
      match xs !! i with
      | None => ret tt
      | Some x => do! body x in for_list_from fuel' l (S i) body
      end
  end.

Definition for_list (l : loc) (body : Q -> M unit) : M unit :=
  let! xs := load_list l in
  for_list_from (S (length xs)) l 0 body.

(** Modelled from the spec: the ascending order of a sample.  Python's
    built-in [sorted] and the ordering behind [numpy.percentile] are not
    part of the repository; a stable insertion sort stands for both. *)
Fixpoint insert_sorted (x : Q) (l : list Q) : list Q :=
  match l with
  | [] => [x]
  | y :: l' => if Qle_bool x y then x :: y :: l' else y :: insert_sorted x l'
  end.

(** Modelled from the spec: the sample sorted ascending. *)
Fixpoint sort (l : list Q) : list Q :=
  match l with
  | [] => []
  | x :: l' => insert_sorted x (sort l')
  end.

(** [sorted(a)] on an array: a new list holding the values of [a] in
    ascending order; [a] itself is only read. *)
Definition sorted (v : value) : M loc :=
  let! d := expect_ndarray v in
  alloc (PyList (sort d)).

(** [a / b] on Python ints: true division, [ZeroDivisionError] when the
    divisor is zero. *)
Definition truediv (a b : Z) : result Q :=
  if (b =? 0)%Z then Raise ZeroDivisionError
  else Ok (inject_Z a / inject_Z b)%Q.

End Py.

(** ** The library functions the scripts call

    NumPy, SciPy and pandas are not part of the repository.  Each function
    below follows the library's documented behaviour for the arguments the
    scripts pass. *)

(** What the development does not compute: the square root behind
    [numpy.std] and the Student distribution behind
    [scipy.stats.ttest_1samp].  They are an interface the theorems
    quantify over. *)
Class SciLib : Type := {
  sqrt_float : Q -> Q;
  ttest_1samp : list Q -> Q -> Q * Q
}.

Module Np.
Import Py.
Local Open Scope py_scope.

(** Linear interpolation as NumPy's [_lerp] computes it: from the left
    end for [t < 0.5], from the right end otherwise. *)
Definition lerp (a b t : Q) : Q :=
  if Qle_bool (1 # 2) t then (b - (b - a) * (1 - t))%Q
  else (a + (b - a) * t)%Q.

(** The virtual index of percentile [q] in a sample of [n] values, for
    NumPy's default method: [(n - 1) * q / 100]. *)
Definition virtual_index (n : nat) (q : Q) : Q :=
  (inject_Z (Z.of_nat n - 1) * (q / 100))%Q.

(** The value at virtual index [v] of the sorted sample [s]: the
    interpolation between the values at the floor of [v] and at the next
    position; both positions are the last one once [v] reaches it, and
    the first one below zero. *)
Definition interpolate (s : list Q) (v : Q) : Q :=
  let n := length s in
  let gamma := (v - inject_Z (Qfloor v))%Q in
  if Qle_bool (inject_Z (Z.of_nat n - 1)) v then
    lerp (nth (n - 1) s 0%Q) (nth (n - 1) s 0%Q) gamma
  else if Qlt_bool v 0 then
    lerp (nth 0 s 0%Q) (nth 0 s 0%Q) gamma
  else
    let i := Z.to_nat (Qfloor v) in
    lerp (nth i s 0%Q) (nth (S i) s 0%Q) gamma.

(** Modelled from the spec: [numpy.percentile(a, q)] with the default
    method, the linear-interpolation percentile computation over the
    sorted sample; NumPy is not part of the repository. *)
Definition quantile_linear (d : list Q) (q : Q) : Q :=
  interpolate (sort d) (virtual_index (length d) q).

(** [numpy.percentile] returns a new array and leaves its argument
    alone. *)
Definition percentile (v : value) (qs : list Q) : M loc :=
  let! d := expect_ndarray v in
  alloc (Ndarray (map (quantile_linear d) qs)).

Definition Qsum (l : list Q) : Q := fold_right Qplus 0%Q l.

(** [numpy.mean]. *)
Definition mean (d : list Q) : Q :=
  (Qsum d / inject_Z (Z.of_nat (length d)))%Q.

(** [numpy.std]: the population standard deviation. *)
Definition std `{SciLib} (d : list Q) : Q :=
  sqrt_float (mean (map (fun x => ((x - mean d) * (x - mean d))%Q) d)).

(** [numpy.median]: the middle value of the sorted sample, or the mean
    of the two middle values when the size is even. *)
Definition median (d : list Q) : Q :=
  let s := sort d in
  let n := length d in
  if Nat.even n then
    ((nth (n / 2 - 1) s 0 + nth (n / 2) s 0) / 2)%Q
  else nth (n / 2) s 0%Q.

(** [a > t]: the elementwise comparison mask. *)
Definition greater (d : list Q) (t : Q) : list bool :=
  map (fun x => Qlt_bool t x) d.

(** [numpy.sum] of a mask: the number of its [True] entries. *)
Definition sum_bool (mask : list bool) : Z :=
  fold_right (fun (b : bool) acc => if b then (1 + acc)%Z else acc) 0%Z mask.

(** The generator's [rk_interval max]: the next bounded draw, in
    [0 .. max]. *)
Definition random_interval (max : nat) : M nat :=
  fun st =>
    let r := rng st in
    (Ok (rk_raw r (rk_pos r) mod S max), mkState (heap st) (advance r 1)).

(** Exchange of two array cells. *)
Definition swap (i j : nat) (arr : list nat) : list nat :=
  match arr !! i, arr !! j with
  | Some x, Some y => <[i := y]> (<[j := x]> arr)
  | _, _ => arr
  end.

(** The generator's shuffle (Fisher-Yates): for [i] from the last
    position down to [1], a bounded draw [j] in [0 .. i] and an exchange
    of cells [i] and [j]. *)
Fixpoint shuffle_from (i : nat) (arr : list nat) : M (list nat) :=
  match i with
  | O => ret arr
  | S i' =>
      let! j := random_interval i in
      shuffle_from i' (swap i j arr)
  end.

(** [numpy.random.permutation(n)]: [arange(n)], shuffled. *)
Definition random_permutation (n : nat) : M (list nat) :=
  shuffle_from (n - 1) (seq 0 n).

(** Modelled from the spec: [numpy.random.choice(a, size,
    replace=False)], uniform sampling without replacement; NumPy is not
    part of the repository.  It takes the first [size] positions of a
    random permutation of the positions of [a] and returns the values of
    [a] there in a new array; it raises [ValueError] when [size] exceeds
    the population. *)
Definition random_choice (v : value) (size : nat) : M loc :=
  let! d := expect_ndarray v in
  if (length d <? size)%nat then raise ValueError
  else
    let! perm := random_permutation (length d) in
    alloc (Ndarray (map (fun i => nth i d 0%Q) (take size perm))).

(** [numpy.random.normal(loc, scale, size)]: [size] draws
    [loc + scale * z] for standard normal deviates [z], in a new
    array. *)
Definition random_normal (mu sigma : Q) (size : nat) : M loc :=
  fun st =>
    let r := rng st in
    alloc
      (Ndarray (map (fun k => (mu + sigma * rk_gauss r (rk_pos r + k))%Q)
                    (seq 0 size)))
      (mkState (heap st) (advance r size)).

End Np.

(** ** exercise1.py *)

Module Exercise1.
Import Py.
Local Open Scope py_scope.

Definition generate_height_data (size mean std_dev : value) : M loc :=
  if negb (isinstance_int size) then raise TypeError
  else if (to_Z size <=? 0)%Z then raise ValueError
  else if negb (isinstance_int_float mean) then raise TypeError
  else if negb (isinstance_int_float std_dev)
          || Qle_bool (to_Q std_dev) 0 then raise ValueError
  else Np.random_normal (to_Q mean) (to_Q std_dev) (Z.to_nat (to_Z size)).

Definition descriptive_statistics `{SciLib} (height_data : value)
    : M (Q * Q * Q) :=
  let! d := expect_ndarray height_data in
  if (length d =? 0)%nat then raise ValueError
  else ret (Np.mean d, Np.std d, Np.median d).

Definition calculate_percentile (height_data : value) : M loc :=
  let! d := expect_ndarray height_data in
  if (length d =? 0)%nat then raise ValueError
  else Np.percentile height_data [25%Q; 50%Q; 75%Q].

Definition identify_outliers (height_data : value) : M loc :=
  let! d := expect_ndarray height_data in
  if (length d =? 0)%nat then raise ValueError
  else
    let! percentiles := calculate_percentile height_data in
    let! q3 := getitem percentiles 2 in
    let! q1 := getitem percentiles 0 in
    let iqr := (q3 - q1)%Q in
    let upper_boundary := (q3 + 1.5 * iqr)%Q in
    let lower_boundary := (q1 - 1.5 * iqr)%Q in
    let! sorted_height_data := sorted height_data in
    let! outliers := alloc (PyList []) in
    do! for_list sorted_height_data (fun data =>
          if Qlt_bool data lower_boundary || Qlt_bool upper_boundary data
          then list_append outliers data
          else ret tt) in
    ret outliers.

Definition random_sampling (height_data : value) : M loc :=
  let! d := expect_ndarray height_data in
  if (length d <? 50)%nat then raise ValueError
  else Np.random_choice height_data 50.

Definition hypothesis_testing `{SciLib} (data null_hypothesis_mean : value)
    : M (Q * Q) :=
  let! d := expect_ndarray data in
  if (length d =? 0)%nat then raise ValueError
  else if negb (isinstance_int_float null_hypothesis_mean)
  then raise TypeError
  else ret (ttest_1samp d (to_Q null_hypothesis_mean)).

Definition calculate_probability (data threshold_height : value) : M Q :=
  let! d := expect_ndarray data in
  if (length d =? 0)%nat then raise ValueError
  else if negb (isinstance_int_float threshold_height)
  then raise TypeError
  else
    ret (inject_Z (Np.sum_bool (Np.greater d (to_Q threshold_height)))
         / inject_Z (Z.of_nat (length d)))%Q.

End Exercise1.

(** ** exercise2.py *)

(** The part of pandas the script uses: a frame is a sequence of named,
    typed columns. *)
Module Pd.

Inductive Series : Type :=
| BoolSeries (l : list bool)
| ObjectSeries (l : list string)
| FloatSeries (l : list Q).

Definition DataFrame : Type := list (string * Series).

(** [df[name]], [None] when [name not in df.columns]. *)
Fixpoint get_column (df : DataFrame) (name : string) : option Series :=
  match df with
  | [] => None
  | (c, s) :: df' => if String.eqb c name then Some s else get_column df' name
  end.

(** [pd.api.types.is_bool_dtype]. *)
Definition is_bool_dtype (s : Series) : bool :=
  match s with
  | BoolSeries _ => true
  | _ => false
  end.

(** [s == 'text'], elementwise. *)
Definition eq_str (s : Series) (x : string) : list bool :=
  match s with
  | BoolSeries l => map (fun _ => false) l
  | ObjectSeries l => map (fun y => String.eqb y x) l
  | FloatSeries l => map (fun _ => false) l
  end.

(** [s == True], elementwise. *)
Definition eq_true (s : Series) : list bool :=
  match s with
  | BoolSeries l => l
  | ObjectSeries l => map (fun _ => false) l
  | FloatSeries l => map (fun y => Qeq_bool y 1) l
  end.

(** [m1 & m2] on masks of one frame. *)
Definition mask_and (m1 m2 : list bool) : list bool := zip_with andb m1 m2.

(** [df.loc[mask].shape[0]]: the number of selected rows. *)
Definition count_rows (mask : list bool) : Z :=
  Z.of_nat (length (List.filter (fun b : bool => b) mask)).

End Pd.

Module Exercise2.
Import Py Pd.

Definition who_suffers_more_from_disease (heart_disease_data : DataFrame)
    : result (string * Q) :=
  match get_column heart_disease_data "Sex",
        get_column heart_disease_data "Disease" with
  | Some sex, Some disease =>
      if negb (is_bool_dtype disease) then Raise TypeError
      else
        let men_with_disease :=
          count_rows (mask_and (eq_str sex "male") (eq_true disease)) in
        let women_with_disease :=
          count_rows (mask_and (eq_str sex "female") (eq_true disease)) in
        let higher := Z.max men_with_disease women_with_disease in
        let lower := Z.min men_with_disease women_with_disease in
        match truediv (higher - lower) higher with
        | Ok r =>
            let percentage_difference := (r * 100)%Q in
            if (men_with_disease >? women_with_disease)%Z
            then Ok ("men", percentage_difference)
            else Ok ("women", percentage_difference)
        | Raise e => Raise e
        | OutOfFuel => OutOfFuel
        end
  | _, _ => Raise ValueError
  end.

End Exercise2.

(** ** Vocabulary of the specification

    The quantities the specification names, written once so that the
    statements below read like it. *)

Module Spec.
Import Py.

Definition p25 (d : list Q) : Q := Np.quantile_linear d 25.
Definition p50 (d : list Q) : Q := Np.quantile_linear d 50.
Definition p75 (d : list Q) : Q := Np.quantile_linear d 75.

Definition iqr (d : list Q) : Q := (p75 d - p25 d)%Q.
Definition upper_fence (d : list Q) : Q := (p75 d + 1.5 * iqr d)%Q.
Definition lower_fence (d : list Q) : Q := (p25 d - 1.5 * iqr d)%Q.


Definition is_outlier (d : list Q) (x : Q) : bool :=
  Qlt_bool x (lower_fence d) || Qlt_bool (upper_fence d) x.

(** The number of sample values strictly greater than a threshold. *)
Definition count_above (t : Q) (d : list Q) : nat :=
  length (List.filter (fun x => if Qlt_le_dec t x then true else false) d).

(** The store of [st'] extends the store of [st]: every object of [st]
    is in [st'] with the same contents. *)
Definition store_preserved (st st' : state) : Prop :=
  heap st ⊆ heap st'.

(** The six operations of the summarizer, with their arguments. *)
Inductive operation : Type :=
| Summarize (sample : value)
| Percentiles (sample : value)
| Outliers (sample : value)
| Subsample (sample : value)
| TestAgainstMean (sample hypothesized_mean : value)
| ExceedanceProbability (sample threshold : value).

(** State after running an operation, whatever it returns. *)
Definition state_after `{SciLib} (op : operation) (st : state) : state :=
  match op with
  | Summarize v => snd (Exercise1.descriptive_statistics v st)
  | Percentiles v => snd (Exercise1.calculate_percentile v st)
  | Outliers v => snd (Exercise1.identify_outliers v st)
  | Subsample v => snd (Exercise1.random_sampling v st)
  | TestAgainstMean v m => snd (Exercise1.hypothesis_testing v m st)
  | ExceedanceProbability v t => snd (Exercise1.calculate_probability v t st)
  end.

Definition is_subsample (op : operation) : bool :=
  match op with
  | Subsample _ => true
  | _ => false
  end.

(** The number of rows of one sex with the disease. *)
Definition diseased (who : string) (sex : Pd.Series) (disease : list bool)
    : Z :=
  Pd.count_rows (Pd.mask_and (Pd.eq_str sex who) disease).

End Spec.

(** ** Concrete inputs used to exercise the statements *)

Module Examples.
Import Py.

(** The sample of the specification's worked example. *)
Definition sample8 : list Q :=
  [10; 12; 14; 15; 18; 19; 20; 1000]%Q.

(** Fifty equal measurements. *)
Definition constant50 : list Q := repeat 170%Q 50.

(** A seeded generator. *)
Definition generator : RandomState :=
  mkRandomState (fun k => 7 * k + 3) (fun k => inject_Z (Z.of_nat k) - 2)%Q 0.

(** A state whose store holds one array, at reference [1]. *)
Definition state_with (d : list Q) : state :=
  mkState {[ 1 := Ndarray d ]} generator.

(** Stand-ins for the functions the development does not compute. *)
Definition scilib : SciLib :=
  {| sqrt_float := fun x => x; ttest_1samp := fun _ _ => (0%Q, 1%Q) |}.

End Examples.

(** ** Grouping rows

    The part of [DataFrame.groupby] the script uses: rows are grouped by
    the values of key columns, the groups come in ascending order of
    their keys, and each key appears once. *)

Module PdGroup.
Import Pd.

(** A value of a column, whatever the column's dtype. *)
Inductive cell : Type :=
| CBool (b : bool)
| CStr (s : string)
| CNum (q : Q).

Definition cells (s : Series) : list cell :=
  match s with
  | BoolSeries l => map CBool l
  | ObjectSeries l => map CStr l
  | FloatSeries l => map CNum l
  end.

(** Equality of values, as grouping sees it. *)
Definition cell_eqb (x y : cell) : bool :=
  match x, y with
  | CBool a, CBool b => Bool.eqb a b
  | CStr a, CStr b => String.eqb a b
  | CNum a, CNum b => Qeq_bool a b
  | _, _ => false
  end.

Definition kind_rank (x : cell) : nat :=
  match x with
  | CBool _ => 0
  | CNum _ => 1
  | CStr _ => 2
  end.

(** Ascending order of values: [False < True], numbers by value, strings
    lexicographically. *)
Definition cell_leb (x y : cell) : bool :=
  match x, y with
  | CBool a, CBool b => implb a b
  | CStr a, CStr b => String.leb a b
  | CNum a, CNum b => Qle_bool a b
  | _, _ => (kind_rank x <=? kind_rank y)%nat
  end.

(** Keys made of two columns, compared column by column. *)
Definition key_eqb (p q : cell * cell) : bool :=
  cell_eqb (fst p) (fst q) && cell_eqb (snd p) (snd q).

Definition key_leb (p q : cell * cell) : bool :=
  if cell_eqb (fst p) (fst q) then cell_leb (snd p) (snd q)
  else cell_leb (fst p) (fst q).

Section Keys.
Context {K : Type} (eqb leb : K -> K -> bool).

(** One representative of every value of the list. *)
Fixpoint distinct (l : list K) : list K :=
  match l with
  | [] => []
  | x :: l' =>
      let r := distinct l' in
      if existsb (eqb x) r then r else x :: r
  end.

Fixpoint insert_by (x : K) (l : list K) : list K :=
  match l with
  | [] => [x]
  | y :: l' => if leb x y then x :: y :: l' else y :: insert_by x l'
  end.

Definition sort_by (l : list K) : list K := fold_right insert_by [] l.

(** The group keys of [groupby]: the distinct values, ascending. *)
Definition unique_sorted (l : list K) : list K := sort_by (distinct l).

End Keys.

(** Modelled from the spec: [df.groupby([a, d]).size().unstack(
    fill_value=0)] of pandas, which is not part of the repository: a
    table with one row per distinct value of [a] and one column per
    distinct value of [d], both ascending, whose entry is the number of
    rows of the frame with that pair of values, [0] when there is
    none. *)
Definition crosstab (a d : Series) : list (cell * list (cell * nat)) :=
  let pairs := combine (cells a) (cells d) in
  let rows := unique_sorted cell_eqb cell_leb (map fst pairs) in
  let columns := unique_sorted cell_eqb cell_leb (map snd pairs) in
  map (fun r =>
         (r, map (fun c => (c, length (List.filter (key_eqb (r, c)) pairs)))
                 columns))
      rows.

(** The sum of all entries of a table. *)
Definition table_total (t : list (cell * list (cell * nat))) : nat :=
  list_sum (map (fun row => list_sum (map snd (snd row))) t).

(** The values of a column as numbers, when it has a numeric or boolean
    dtype. *)
Definition numeric_values (s : Series) : option (list Q) :=
  match s with
  | BoolSeries l => Some (map (fun b : bool => if b then 1%Q else 0%Q) l)
  | FloatSeries l => Some l
  | ObjectSeries _ => None
  end.

(** A column of the dtype of [like] holding the values [cs]. *)
Definition rebuild (like : Series) (cs : list cell) : Series :=
  match like with
  | BoolSeries _ =>
      BoolSeries (omap (fun c => match c with CBool b => Some b | _ => None end) cs)
  | ObjectSeries _ =>
      ObjectSeries (omap (fun c => match c with CStr s => Some s | _ => None end) cs)
  | FloatSeries _ =>
      FloatSeries (omap (fun c => match c with CNum q => Some q | _ => None end) cs)
  end.

(** The values of [v] in the rows whose key is [k]. *)
Definition group_values (k : cell * cell)
    (rows : list ((cell * cell) * Q)) : list Q :=
  map snd (List.filter (fun r => key_eqb k (fst r)) rows).

(** Modelled from the spec: [df.groupby([a, d])[v].mean().reset_index()]
    of pandas: one row per distinct pair of values of [a] and [d],
    ascending, with the arithmetic mean of [v] over the rows of that
    pair; [None] when [v] is not numeric (pandas raises). *)
Definition group_means (a d v : Series) (name_a name_d name_v : string)
    : option DataFrame :=
  match numeric_values v with
  | None => None
  | Some vs =>
      let pairs := combine (cells a) (cells d) in
      let rows := combine pairs vs in
      let keys := unique_sorted key_eqb key_leb (map fst rows) in
      Some [(name_a, rebuild a (map fst keys));
            (name_d, rebuild d (map snd keys));
            (name_v, FloatSeries (map (fun k => Np.mean (group_values k rows))
                                      keys))]
  end.

End PdGroup.

(** ** Printing and plotting

    The scripts print to the console and call matplotlib.  Both are kept
    as a trace of events, in order; whether a matplotlib call fails is
    not the scripts' doing, so it is left to an interface the theorems
    quantify over. *)

Module Io.
Import Py.

(** An argument of [print]. *)
Inductive printable : Type :=
| PStr (s : string)
| PNum (q : Q)
| PSeq (xs : list Q)
| PFrame (df : Pd.DataFrame)
| PFixed (q : Q) (digits : nat).

(** The matplotlib calls of the two scripts, with the arguments they
    pass; keyword arguments that only style the figure are kept as
    text. *)
Inductive plot_call : Type :=
| Hist (data : Pd.Series) (bins : nat) (style : list (string * string))
| Boxplot (data : list Pd.Series) (tick_labels : list string)
          (style : list (string * string))
| BarPlot (table : list (PdGroup.cell * list (PdGroup.cell * nat)))
          (style : list (string * string))
| Legend (title : string) (labels : list string)
| TightLayout
| Title (s : string)
| XLabel (s : string)
| YLabel (s : string)
| Grid (style : list (string * string))
| Show.

(** [Printed args] is [print(args...)]; [PrintedFormatted parts] is
    [print] of one f-string made of [parts] ([PFixed q 2] standing for
    [{q:.2f}]). *)
Inductive event : Type :=
| Printed (args : list printable)
| PrintedFormatted (parts : list printable)
| Plotted (call : plot_call).

(** Why a run stopped: a Python exception of the scripts' own making, or
    an error inside the plotting library. *)
Inductive failure : Type :=
| Python (e : exn)
| Library (name : string).

Inductive outcome (A : Type) : Type :=
| Done (a : A)
| Failed (f : failure)
| Stuck.
Arguments Done {A} a.
Arguments Failed {A} f.
Arguments Stuck {A}.

(** The plotting library: given what happened so far, whether a call
    fails, and with which error. *)
Class Matplotlib : Type := {
  plt_fails : list event -> plot_call -> option string
}.

Record world : Type := mkWorld {
  py : state;
  trace : list event
}.

Definition M (A : Type) : Type := world -> outcome A * world.

Definition ret {A} (a : A) : M A := fun w => (Done a, w).

Definition raise {A} (e : exn) : M A := fun w => (Failed (Python e), w).

Definition bind {A B} (m : M A) (k : A -> M B) : M B :=
  fun w =>
    match m w with
    | (Done a, w') => k a w'
    | (Failed f, w') => (Failed f, w')
    | (Stuck, w') => (Stuck, w')
    end.

Declare Scope io_scope.
Delimit Scope io_scope with io.
Notation "'let?' x ':=' m 'in' k" := (bind m (fun x => k))
  (at level 10, x name, m at level 100, k at level 200) : io_scope.
Notation "'do?' m 'in' k" := (bind m (fun _ => k))
  (at level 10, m at level 100, k at level 200) : io_scope.

(** A computation on the store, run inside a script. *)
Definition lift {A} (m : Py.M A) : M A :=
  fun w =>
    match m (py w) with
    | (Ok a, st') => (Done a, mkWorld st' (trace w))
    | (Raise e, st') => (Failed (Python e), mkWorld st' (trace w))
    | (OutOfFuel, st') => (Stuck, mkWorld st' (trace w))
    end.

(** [print(args...)]. *)
Definition print (args : list printable) : M unit :=
  fun w => (Done tt, mkWorld (py w) (trace w ++ [Printed args])).

(** [print(f"...")]. *)
Definition print_formatted (parts : list printable) : M unit :=
  fun w => (Done tt, mkWorld (py w) (trace w ++ [PrintedFormatted parts])).

(** A matplotlib call: recorded, then it returns or fails. *)
Definition plt `{Matplotlib} (call : plot_call) : M unit :=
  fun w =>
    let w' := mkWorld (py w) (trace w ++ [Plotted call]) in
    match plt_fails (trace w) call with
    | None => (Done tt, w')
    | Some name => (Failed (Library name), w')
    end.

(** The outcome of a function that touches neither the store nor the
    trace. *)
Definition of_result {A} (r : result A) : M A :=
  fun w =>
    match r with
    | Ok a => (Done a, w)
    | Raise e => (Failed (Python e), w)
    | OutOfFuel => (Stuck, w)
    end.

(** [x[i]] on a NumPy scalar: always [IndexError] ("invalid index to
    scalar variable"). *)
Definition scalar_getitem (x : Q) (i : nat) : M Q := raise IndexError.

End Io.

(** ** exercise1.py: the histogram and the driver *)

Module Exercise1Script.
Import Py Io.
Local Open Scope io_scope.

Definition visualise_histogram `{Matplotlib} (height_data : value) : M unit :=
  let? d := lift (expect_ndarray height_data) in
  if (length d =? 0)%nat then raise ValueError
  else
    do? plt (Hist (Pd.FloatSeries d) 8
               [("linewidth", "0.5"); ("edgecolor", "white")]) in
    do? plt (Title "Histogram of Height") in
    do? plt (XLabel "Height [cm]") in
    do? plt (YLabel "Count") in
    plt Show.

(** A line feed, for the strings of the driver that start with one. *)
Definition nl (s : string) : string := String (Ascii.ascii_of_nat 10) s.

(** The body of [if __name__ == '__main__'].  Omitted arguments take the
    defaults of the function definitions: [generate_height_data(1000,
    170, 10)], [hypothesis_testing(data, 170)] and
    [calculate_probability(data, 180)]. *)
Definition main `{SciLib} `{Matplotlib} : M unit :=
  let? a := lift (Exercise1.generate_height_data
                    (VInt 1000) (VInt 170) (VInt 10)) in
  let height_data := VRef a in
  do? print [PStr "Statistics:"] in
  let? s := lift (Exercise1.descriptive_statistics height_data) in
  do? print [PStr "Mean: "; PNum (fst (fst s))] in
  let? s := lift (Exercise1.descriptive_statistics height_data) in
  do? print [PStr "Standard Deviation: "; PNum (snd (fst s))] in
  let? s := lift (Exercise1.descriptive_statistics height_data) in
  do? print [PStr "Median: "; PNum (snd s)] in
  do? visualise_histogram height_data in
  do? print [PStr (nl "Percentiles:")] in
  let? p := lift (Exercise1.calculate_percentile height_data) in
  let? q := lift (getitem p 0) in
  do? print [PStr "25th percentile: "; PNum q] in
  let? p := lift (Exercise1.calculate_percentile height_data) in
  let? q := lift (getitem p 1) in
  do? print [PStr "50th percentile: "; PNum q] in
  let? p := lift (Exercise1.calculate_percentile height_data) in
  let? q := lift (getitem p 2) in
  do? print [PStr "75th percentile: "; PNum q] in
  do? print [PStr (nl "Outliers:")] in
  let? o := lift (Exercise1.identify_outliers height_data) in
  let? xs := lift (load_list o) in
  do? print [PSeq xs] in
  do? print [PStr (nl "Random Sampling:")] in
  let? o := lift (Exercise1.random_sampling height_data) in
  let? xs := lift (expect_ndarray (VRef o)) in
  do? print [PSeq xs] in
  do? print [PStr (nl "Hypothesis Testing:")] in
  let? t := lift (Exercise1.hypothesis_testing height_data (VInt 170)) in
  do? print [PStr "T-statistic: "; PNum (fst t)] in
  let? pr := lift (Exercise1.calculate_probability height_data (VInt 180)) in
  let? x := scalar_getitem pr 1 in
  do? print [PStr "Probability-value: "; PNum x] in
  do? print [PStr (nl "Calculate Probability:")] in
  let? pr := lift (Exercise1.calculate_probability height_data (VInt 180)) in
  print [PNum pr].

End Exercise1Script.

(** ** exercise2.py: the charts *)

Module Exercise2Charts.
Import Py Pd Io.
Local Open Scope io_scope.

(** [s == False], elementwise. *)
Definition eq_false (s : Series) : list bool :=
  match s with
  | BoolSeries l => map negb l
  | ObjectSeries l => map (fun _ => false) l
  | FloatSeries l => map (fun y => Qeq_bool y 0) l
  end.

(** The entries of [l] at the positions where [mask] holds. *)
Fixpoint take_where {A} (mask : list bool) (l : list A) : list A :=
  match mask, l with
  | b :: mask', x :: l' =>
      if b then x :: take_where mask' l' else take_where mask' l'
  | _, _ => []
  end.

Definition boolean_index (mask : list bool) (s : Series) : Series :=
  match s with
  | BoolSeries l => BoolSeries (take_where mask l)
  | ObjectSeries l => ObjectSeries (take_where mask l)
  | FloatSeries l => FloatSeries (take_where mask l)
  end.

(** [df[mask]]: the rows of [df] where [mask] holds, in every column. *)
Definition filter_rows (mask : list bool) (df : DataFrame) : DataFrame :=
  map (fun cs => (fst cs, boolean_index mask (snd cs))) df.

(** [df[mask][name]]; a missing column is a [KeyError] of pandas. *)
Definition masked_column (df : DataFrame) (mask : list bool) (name : string)
    : M Series :=
  match get_column (filter_rows mask df) name with
  | Some s => ret s
  | None => fun w => (Failed (Library "KeyError"), w)
  end.

Definition visualise_histogram `{Matplotlib} (heart_disease_data : DataFrame)
    : M unit :=
  match get_column heart_disease_data "Age",
        get_column heart_disease_data "Disease" with
  | Some _, Some disease =>
      let? ages_with_disease :=
        masked_column heart_disease_data (eq_true disease) "Age" in
      do? plt (Title "Age Distribution of Patients with Heart Disease") in
      do? plt (XLabel "Age") in
      do? plt (YLabel "Frequency") in
      do? plt (Hist ages_with_disease 10 [("edgecolor", "black")]) in
      plt Show
  | _, _ => raise ValueError
  end.

(** The loop over [required_columns]. *)
Fixpoint require_columns (df : DataFrame) (required : list string) : M unit :=
  match required with
  | [] => ret tt
  | column :: rest =>
      match get_column df column with
      | None => raise ValueError
      | Some _ => require_columns df rest
      end
  end.

Definition visualise_boxplot `{Matplotlib} (heart_disease_data : DataFrame)
    : M unit :=
  do? require_columns heart_disease_data
        ["Maximum heart rate achieved"; "Disease"] in
  match get_column heart_disease_data "Disease" with
  | Some disease =>
      let? without := masked_column heart_disease_data (eq_false disease)
                        "Maximum heart rate achieved" in
      let? with_disease := masked_column heart_disease_data (eq_true disease)
                             "Maximum heart rate achieved" in
      let data_to_plot := [without; with_disease] in
      do? plt (Boxplot data_to_plot ["No Disease"; "Disease"]
                 [("patch_artist", "True");
                  ("boxprops", "facecolor=skyblue, color=black");
                  ("medianprops", "color=red")]) in
      do? plt (Title "Maximum Heart Rate Achieved by Disease Presence") in
      do? plt (XLabel "Disease Presence") in
      do? plt (YLabel "Maximum Heart Rate Achieved (bpm)") in
      do? plt (Grid [("axis", "y"); ("linestyle", "--"); ("alpha", "0.7")]) in
      plt Show
  | None => fun w => (Failed (Library "KeyError"), w)
  end.

Definition visualise_barchart `{Matplotlib} (heart_disease_data : DataFrame)
    : M unit :=
  match get_column heart_disease_data "Exercise induced angina",
        get_column heart_disease_data "Disease" with
  | Some angina, Some disease =>
      let frequency_of_disease := PdGroup.crosstab angina disease in
      do? plt (BarPlot frequency_of_disease
                 [("kind", "bar"); ("edgecolor", "black");
                  ("color", "skyblue, orange")]) in
      do? plt (Title "Frequency of Exercise Induced angina") in
      do? plt (XLabel "Exercise induced angina") in
      do? plt (YLabel "Frequency") in
      do? plt (Legend "Disease" ["No Disease"; "Disease"]) in
      do? plt TightLayout in
      plt Show
  | _, _ => raise ValueError
  end.

Definition average_value_of_serum_cholesterol
    (heart_disease_data : DataFrame) : M DataFrame :=
  do? require_columns heart_disease_data
        ["Sex"; "Disease"; "Serum cholesterol in mg/dl"] in
  match get_column heart_disease_data "Sex",
        get_column heart_disease_data "Disease",
        get_column heart_disease_data "Serum cholesterol in mg/dl" with
  | Some sex, Some disease, Some cholesterol =>
      match PdGroup.group_means sex disease cholesterol
              "Sex" "Disease" "Serum cholesterol in mg/dl" with
      | Some avg_cholesterol_df =>
          do? print [PStr (String (Ascii.ascii_of_nat 10)
                             "Average Serum Cholesterol Levels by Sex and Disease:")] in
          do? print [PFrame avg_cholesterol_df] in
          ret avg_cholesterol_df
      | None => fun w => (Failed (Library "TypeError"), w)
      end
  | _, _, _ => fun w => (Failed (Library "KeyError"), w)
  end.

End Exercise2Charts.

(** ** exercise2.py: loading the data and the driver *)

Module Exercise2Script.
Import Py Pd Io Exercise2Charts.
Local Open Scope io_scope.

(** What [pd.read_csv] does with a path: a parsed frame, no such file, or
    another error of the library. *)
Inductive csv_result : Type :=
| CsvFrame (df : DataFrame)
| CsvMissing
| CsvError (name : string).

Class Filesystem : Type := {
  read_csv : string -> csv_result
}.

(** A raised exception that is not one of the scripts' own. *)
Definition fail {A} (name : string) : M A :=
  fun w => (Failed (Library name), w).

Definition load_data `{Filesystem} : M DataFrame :=
  match read_csv "heart_disease_dataset.csv" with
  | CsvFrame heart_disease_data => ret heart_disease_data
  | CsvMissing =>
      do? print [PStr "Error: The file 'heart_disease_dataset.csv' was not found."] in
      fail "FileNotFoundError"
  | CsvError name => fail name
  end.

Definition to_upper (a : Ascii.ascii) : Ascii.ascii :=
  let n := Ascii.nat_of_ascii a in
  if ((97 <=? n) && (n <=? 122))%nat then Ascii.ascii_of_nat (n - 32) else a.

Definition to_lower (a : Ascii.ascii) : Ascii.ascii :=
  let n := Ascii.nat_of_ascii a in
  if ((65 <=? n) && (n <=? 90))%nat then Ascii.ascii_of_nat (n + 32) else a.

Fixpoint lower (s : string) : string :=
  match s with
  | EmptyString => EmptyString
  | String a s' => String (to_lower a) (lower s')
  end.

(** [str.capitalize()], on ASCII text. *)
Definition capitalize (s : string) : string :=
  match s with
  | EmptyString => EmptyString
  | String a s' => String (to_upper a) (lower s')
  end.

(** The body of [if __name__ == '__main__'].  [load_data] returns a frame
    or raises, so the test [heart_disease_data is not None] always
    holds. *)
Definition main `{Filesystem} `{Matplotlib} : M unit :=
  let? heart_disease_data := load_data in
  let? r := of_result (Exercise2.who_suffers_more_from_disease
                         heart_disease_data) in
  let gender := fst r in
  let percentage := snd r in
  do? print_formatted
        [PStr (capitalize gender);
         PStr " suffer more from heart disease by ";
         PFixed percentage 2;
         PStr (String.append "%."
                 (String (Ascii.ascii_of_nat 10) EmptyString))] in
  let? avg_cholesterol_df :=
    average_value_of_serum_cholesterol heart_disease_data in
  do? visualise_histogram heart_disease_data in
  do? visualise_boxplot heart_disease_data in
  visualise_barchart heart_disease_data.

End Exercise2Script.

(** ** Concrete inputs for the scripts' output *)

Module ScriptExamples.
Import Py Pd Io.

(** A plotting library in which no call fails. *)
Definition quiet : Matplotlib := {| plt_fails := fun _ _ => None |}.

(** A plotting library without a display: [show] fails. *)
Definition headless : Matplotlib :=
  {| plt_fails := fun _ call =>
       match call with
       | Show => Some "RuntimeError"
       | _ => None
       end |}.

(** A directory without the dataset. *)
Definition no_file : Exercise2Script.Filesystem :=
  {| Exercise2Script.read_csv := fun _ => Exercise2Script.CsvMissing |}.

(** A world with one array at reference [1] and nothing printed yet. *)
Definition world_with (d : list Q) : world :=
  mkWorld (Examples.state_with d) [].

(** Four patients. *)
Definition patients : DataFrame :=
  [("Age", FloatSeries [63; 41; 57; 50]%Q);
   ("Sex", ObjectSeries ["male"; "female"; "male"; "female"]);
   ("Serum cholesterol in mg/dl", FloatSeries [233; 204; 286; 219]%Q);
   ("Maximum heart rate achieved", FloatSeries [150; 172; 163; 158]%Q);
   ("Exercise induced angina", BoolSeries [false; false; true; false]);
   ("Disease", BoolSeries [true; false; true; false])].

(** A directory whose dataset parses to [df]. *)
Definition file_with (df : DataFrame) : Exercise2Script.Filesystem :=
  {| Exercise2Script.read_csv := fun _ => Exercise2Script.CsvFrame df |}.

End ScriptExamples.

(** ** Further vocabulary *)

Module Conditions.
Import Py.

(** The conditions under which [generate_height_data] accepts its
    arguments. *)
Definition valid_generator_arguments (size mean std_dev : value) : Prop :=
  isinstance_int size = true /\ (0 < to_Z size)%Z
  /\ isinstance_int_float mean = true
  /\ isinstance_int_float std_dev = true /\ (0 < to_Q std_dev)%Q.

(** A computation that leaves the program state alone and only adds
    events at the end of the trace. *)
Definition appends {A} (m : Io.M A) : Prop :=
  forall w res w',
    m w = (res, w') ->
    Io.py w' = Io.py w /\ exists rest, Io.trace w' = Io.trace w ++ rest.

End Conditions.

(** * Properties *)

(** ** Running computations *)

Section MonadFacts.
Import Py.

Lemma bind_ok {A B} (m : M A) (k : A -> M B) st a st' :
  m st = (Ok a, st') -> bind m k st = k a st'.
Proof. intros E. unfold bind. now rewrite E. Qed.

Lemma bind_raise {A B} (m : M A) (k : A -> M B) st e st' :
  m st = (Raise e, st') -> bind m k st = (Raise e, st').
Proof. intros E. unfold bind. now rewrite E. Qed.

Lemma state_eta st : mkState (heap st) (rng st) = st.
Proof. now destruct st. Qed.

Lemma expect_ndarray_ok st r d :
  heap st !! r = Some (Ndarray d) ->
  expect_ndarray (VRef r) st = (Ok d, st).
Proof.
  intros H. unfold expect_ndarray, bind, load. now rewrite H.
Qed.

Lemma load_list_ok st l xs :
  heap st !! l = Some (PyList xs) -> load_list l st = (Ok xs, st).
Proof.
  intros H. unfold load_list, bind, load. now rewrite H.
Qed.

Lemma fresh_heap_None (h : gmap loc obj) : h !! fresh (dom h) = None.
Proof. apply not_elem_of_dom, is_fresh. Qed.

Lemma fresh_heap_ne (h : gmap loc obj) l o :
  h !! l = Some o -> fresh (dom h) <> l.
Proof.
  intros H E. rewrite <- E in H. rewrite fresh_heap_None in H. discriminate.
Qed.

Lemma alloc_extends (h : gmap loc obj) o : h ⊆ <[fresh (dom h) := o]> h.
Proof. apply insert_subseteq, fresh_heap_None. Qed.

Lemma list_append_ok st l xs x :
  heap st !! l = Some (PyList xs) ->
  list_append l x st
  = (Ok tt, mkState (<[l := PyList (xs ++ [x])]> (heap st)) (rng st)).
Proof.
  intros H. unfold list_append.
  rewrite (bind_ok _ _ _ _ _ (load_list_ok _ _ _ H)). reflexivity.
Qed.

(** The filtering loop of [identify_outliers]: iterating over the list
    at [s] and appending the selected values to the distinct list at
    [o] leaves in [o] its former items followed by the selected items,
    and changes nothing else. *)
Lemma for_list_from_filter (f : Q -> bool) s o :
  s <> o ->
  forall fuel i st xs acc,
    heap st !! s = Some (PyList xs) ->
    heap st !! o = Some (PyList acc) ->
    length xs - i < fuel ->
    for_list_from fuel s i
      (fun data => if f data then list_append o data else ret tt) st
    = (Ok tt,
       mkState (<[o := PyList (acc ++ List.filter f (drop i xs))]> (heap st))
               (rng st)).
Proof.
  intros Hne. induction fuel as [|fuel IH]; intros i st xs acc Hs Ho Hfuel.
  - lia.
  - cbn [for_list_from].
    rewrite (bind_ok _ _ _ _ _ (load_list_ok _ _ _ Hs)).
    destruct (xs !! i) as [x|] eqn:Hi.
    + assert (Hlt : i < length xs) by (eapply lookup_lt_Some; eauto).
      rewrite (drop_S _ _ _ Hi). cbn [List.filter].
      destruct (f x) eqn:Hf.
      * rewrite (bind_ok _ _ _ _ _ (list_append_ok _ _ _ x Ho)).
        rewrite (IH (S i) _ xs (acc ++ [x])); cbn [heap rng].
        -- rewrite insert_insert_eq, <- app_assoc. reflexivity.
        -- rewrite lookup_insert_ne; auto.
        -- apply lookup_insert_eq.
        -- lia.
      * rewrite (bind_ok _ _ st tt st) by reflexivity.
        apply IH; auto. lia.
    + apply lookup_ge_None in Hi. rewrite drop_ge by lia.
      cbn [List.filter]. rewrite app_nil_r, insert_id by exact Ho.
      unfold ret. now rewrite state_eta.
Qed.

End MonadFacts.

(** ** The sorted sample *)

Section SortFacts.
Import Py Np.

Lemma Qlt_bool_iff x y : Qlt_bool x y = true <-> (x < y)%Q.
Proof.
  unfold Qlt_bool. rewrite negb_true_iff.
  destruct (Qle_bool y x) eqn:E.
  - apply Qle_bool_iff in E. split; [discriminate|].
    intros H. exfalso. exact (Qlt_not_le _ _ H E).
  - split; [intros _|reflexivity].
    apply Qnot_le_lt. intros H. apply Qle_bool_iff in H. congruence.
Qed.









End SortFacts.

(** ** Linear-interpolation percentiles *)

Section PercentileFacts.
Import Py Np.










End PercentileFacts.

(** ** exercise1.py: percentiles and outliers *)

Section OutlierFacts.
Import Py Np Exercise1 Spec.

Lemma nonempty_length (d : list Q) : d <> [] -> (length d =? 0) = false.
Proof. destruct d; [congruence|reflexivity]. Qed.

Lemma getitem_ok st l d i x :
  heap st !! l = Some (Ndarray d) -> d !! i = Some x ->
  getitem l i st = (Ok x, st).
Proof.
  intros Hl Hi. unfold getitem, bind, load. now rewrite Hl, Hi.
Qed.


(** [calculate_percentile] on a non-empty array: a new array with the
    three percentiles, the rest of the state as it was. *)
Lemma calculate_percentile_run st r d :
  heap st !! r = Some (Ndarray d) -> d <> [] ->
  calculate_percentile (VRef r) st
  = (Ok (fresh (dom (heap st))),
     mkState (<[fresh (dom (heap st)) := Ndarray [p25 d; p50 d; p75 d]]>
                (heap st)) (rng st)).
Proof.
  intros Hr Hd. unfold calculate_percentile.
  rewrite (bind_ok _ _ _ _ _ (expect_ndarray_ok _ _ _ Hr)).
  rewrite (nonempty_length _ Hd). unfold percentile.
  rewrite (bind_ok _ _ _ _ _ (expect_ndarray_ok _ _ _ Hr)).
  reflexivity.
Qed.

(** [identify_outliers] on a non-empty array: the result is a new list
    holding the sorted sample filtered by the fence test; every object
    that existed before the call is unchanged. *)
Lemma identify_outliers_run st r d :
  heap st !! r = Some (Ndarray d) -> d <> [] ->
  exists o h',
    identify_outliers (VRef r) st = (Ok o, mkState h' (rng st))
    /\ h' !! o = Some (PyList (List.filter (is_outlier d) (sort d)))
    /\ heap st !! o = None
    /\ heap st ⊆ h'.
Proof.
  intros Hr Hd.
  set (h := heap st).
  set (p := fresh (dom h)).
  set (h1 := <[p := Ndarray [p25 d; p50 d; p75 d]]> h).
  set (s := fresh (dom h1)).
  set (h2 := <[s := PyList (sort d)]> h1).
  set (o := fresh (dom h2)).
  set (h3 := <[o := PyList []]> h2).
  assert (Hp : h !! p = None) by apply fresh_heap_None.
  assert (Hs : h1 !! s = None) by apply fresh_heap_None.
  assert (Ho : h2 !! o = None) by apply fresh_heap_None.
  assert (Hr1 : h1 !! r = Some (Ndarray d)).
  { unfold h1. rewrite lookup_insert_ne; [exact Hr|].
    intros E. rewrite <- E in Hr. fold h in Hr. congruence. }
  assert (Hso : s <> o).
  { intros E. rewrite <- E in Ho. unfold h2 in Ho.
    rewrite lookup_insert_eq in Ho. discriminate. }
  assert (H01 : h ⊆ h1) by (apply insert_subseteq, Hp).
  assert (H12 : h1 ⊆ h2) by (apply insert_subseteq, Hs).
  assert (H23 : h2 ⊆ <[o := PyList (List.filter (is_outlier d) (sort d))]> h2)
    by (apply insert_subseteq, Ho).
  exists o, (<[o := PyList (List.filter (is_outlier d) (sort d))]> h2).
  split; [|split; [apply lookup_insert_eq|split]].
  - unfold identify_outliers.
    rewrite (bind_ok _ _ _ _ _ (expect_ndarray_ok _ _ _ Hr)).
    rewrite (nonempty_length _ Hd).
    rewrite (bind_ok _ _ _ _ _ (calculate_percentile_run _ _ _ Hr Hd)).
    fold h p h1.
    rewrite (bind_ok _ _ _ (p75 d) (mkState h1 (rng st))).
    2:{ eapply getitem_ok; [apply lookup_insert_eq|reflexivity]. }
    rewrite (bind_ok _ _ _ (p25 d) (mkState h1 (rng st))).
    2:{ eapply getitem_ok; [apply lookup_insert_eq|reflexivity]. }
    rewrite (bind_ok _ _ _ s (mkState h2 (rng st))).
    2:{ unfold sorted.
        rewrite (bind_ok _ _ _ d (mkState h1 (rng st)));
          [reflexivity|now apply expect_ndarray_ok]. }
    rewrite (bind_ok _ _ _ o (mkState h3 (rng st))) by reflexivity.
    rewrite (bind_ok _ _ _ tt
               (mkState (<[o := PyList (List.filter (is_outlier d) (sort d))]> h2)
                        (rng st))); [reflexivity|].
    unfold for_list.
    rewrite (bind_ok _ _ _ (sort d) (mkState h3 (rng st))).
    2:{ apply load_list_ok. cbn [heap]. unfold h3.
        rewrite lookup_insert_ne by auto. apply lookup_insert_eq. }
    rewrite (for_list_from_filter (is_outlier d) s o Hso _ 0 _ (sort d) []).
    + cbn [heap rng app drop]. unfold h3. now rewrite insert_insert_eq.
    + cbn [heap]. unfold h3. rewrite lookup_insert_ne by auto.
      apply lookup_insert_eq.
    + apply lookup_insert_eq.
    + lia.
  - eapply lookup_weaken_None; [exact Ho|].
    etransitivity; eassumption.
  - etransitivity; [exact H01|]. etransitivity; [exact H12|exact H23].
Qed.

End OutlierFacts.

Section OutlierClaims.
Import Py Np Exercise1 Spec.



(** C2. For the sample [10, 12, 14, 15, 18, 19, 20, 1000], linear
    interpolation gives p25 = 13.5 and p75 = 19.25, hence IQR = 5.75 and
    upper fence = 27.875, and [identify_outliers] returns exactly
    [1000]. *)
Theorem C2_worked_example st r :
  heap st !! r = Some (Ndarray Examples.sample8) ->
  (exists p st1 q1 q2 q3,
     calculate_percentile (VRef r) st = (Ok p, st1)
     /\ heap st1 !! p = Some (Ndarray [q1; q2; q3])
     /\ (q1 == 13.5)%Q /\ (q3 == 19.25)%Q
     /\ (q3 - q1 == 5.75)%Q
     /\ (q3 + 1.5 * (q3 - q1) == 27.875)%Q)
  /\ (iqr Examples.sample8 == 5.75)%Q
  /\ (upper_fence Examples.sample8 == 27.875)%Q
  /\ exists o st',
       identify_outliers (VRef r) st = (Ok o, st')
       /\ heap st' !! o = Some (PyList [1000%Q]).
Proof.
  intros Hr.
  assert (Hd : Examples.sample8 <> []) by discriminate.
  split; [|split; [|split]].
  - eexists _, _, _, _, _.
    split; [apply (calculate_percentile_run st r _ Hr Hd)|].
    split; [apply lookup_insert_eq|].
    repeat split; vm_compute; reflexivity.
  - vm_compute; reflexivity.
  - vm_compute; reflexivity.
  - destruct (identify_outliers_run st r _ Hr Hd) as (o & h' & Hrun & Ho & _).
    exists o, (mkState h' (rng st)). split; [exact Hrun|].
    cbn [heap]. rewrite Ho. do 2 f_equal.
Qed.

Lemma C2_worked_example_witness :
  let st := Examples.state_with Examples.sample8 in
  heap st !! 1 = Some (Ndarray Examples.sample8)
  /\ (exists p st1 q1 q2 q3,
       calculate_percentile (VRef 1) st = (Ok p, st1)
       /\ heap st1 !! p = Some (Ndarray [q1; q2; q3])
       /\ (q1 == 13.5)%Q /\ (q3 == 19.25)%Q
       /\ (q3 - q1 == 5.75)%Q
       /\ (q3 + 1.5 * (q3 - q1) == 27.875)%Q)
  /\ (iqr Examples.sample8 == 5.75)%Q
  /\ (upper_fence Examples.sample8 == 27.875)%Q
  /\ exists o st',
       identify_outliers (VRef 1) st = (Ok o, st')
       /\ heap st' !! o = Some (PyList [1000%Q]).
Proof.
  intros st. split; [reflexivity|].
  apply (C2_worked_example st 1). reflexivity.
Defined.



End OutlierClaims.

(** ** exercise1.py: exceedance probability *)

Section ProbabilityClaims.
Import Py Np Exercise1 Spec.

(** The mask sum of the source counts the values strictly above the
    threshold. *)
Lemma sum_bool_greater d t :
  sum_bool (greater d t) = Z.of_nat (count_above t d).
Proof.
  unfold greater, count_above.
  induction d as [|x d IH]; [reflexivity|].
  cbn [map sum_bool fold_right List.filter].
  fold (sum_bool (map (fun x => Qlt_bool t x) d)). rewrite IH.
  destruct (Qlt_le_dec t x) as [H|H].
  - apply Qlt_bool_iff in H. rewrite H. cbn [length]. lia.
  - destruct (Qlt_bool t x) eqn:E; [|reflexivity].
    apply Qlt_bool_iff in E. exfalso. exact (Qlt_not_le _ _ E H).
Qed.






End ProbabilityClaims.

(** ** exercise1.py: validation *)

Section ValidationClaims.
Context `{SciLib}.
Import Py Np Exercise1 Spec.

(** C6. On an empty sample, [descriptive_statistics],
    [calculate_percentile], [identify_outliers], [calculate_probability]
    and [hypothesis_testing] all raise [ValueError]; the check comes
    before any computation, whatever the companion argument is: the
    state is untouched (nothing allocated, nothing drawn) and no value is
    returned. *)
Theorem C6_empty_sample_rejected st r :
  heap st !! r = Some (Ndarray []) ->
  descriptive_statistics (VRef r) st = (Raise ValueError, st)
  /\ calculate_percentile (VRef r) st = (Raise ValueError, st)
  /\ identify_outliers (VRef r) st = (Raise ValueError, st)
  /\ (forall t, calculate_probability (VRef r) t st = (Raise ValueError, st))
  /\ (forall m, hypothesis_testing (VRef r) m st = (Raise ValueError, st)).
Proof.
  intros Hr.
  pose proof (expect_ndarray_ok _ _ _ Hr) as E.
  repeat split; intros;
    unfold descriptive_statistics, calculate_percentile, identify_outliers,
      calculate_probability, hypothesis_testing;
    rewrite (bind_ok _ _ _ _ _ E); reflexivity.
Qed.

End ValidationClaims.

Lemma C6_empty_sample_rejected_witness :
  let st := Examples.state_with [] in
  let raised {A} : Py.result A * Py.state := (Py.Raise Py.ValueError, st) in
  Py.heap st !! 1 = Some (Py.Ndarray [])
  /\ @Exercise1.descriptive_statistics Examples.scilib (Py.VRef 1) st = raised
  /\ Exercise1.calculate_percentile (Py.VRef 1) st = raised
  /\ Exercise1.identify_outliers (Py.VRef 1) st = raised
  /\ (forall t, Exercise1.calculate_probability (Py.VRef 1) t st = raised)
  /\ (forall m,
        @Exercise1.hypothesis_testing Examples.scilib (Py.VRef 1) m st = raised).
Proof.
  split; [reflexivity|].
  apply (@C6_empty_sample_rejected Examples.scilib (Examples.state_with []) 1).
  reflexivity.
Defined.

(** ** exercise1.py: random subsampling *)

Section SamplingFacts.
Import Py Np Exercise1 Spec.

Lemma swap_perm i j (arr : list nat) : Permutation (swap i j arr) arr.
Proof.
  unfold swap.
  destruct (arr !! i) as [x|] eqn:Hi; [|reflexivity].
  destruct (arr !! j) as [y|] eqn:Hj; [|reflexivity].
  now apply Permutation_insert_swap.
Qed.

Lemma advance_0 r : advance r 0 = r.
Proof. destruct r. unfold advance. cbn. now rewrite Nat.add_0_r. Qed.

Lemma advance_advance r a b : advance (advance r a) b = advance r (a + b).
Proof. unfold advance. cbn. now rewrite Nat.add_assoc. Qed.

(** The shuffle returns a permutation of its input, touches no object
    and consumes one draw per exchange. *)
Lemma shuffle_from_run i :
  forall arr st,
  exists arr',
    shuffle_from i arr st = (Ok arr', mkState (heap st) (advance (rng st) i))
    /\ Permutation arr' arr.
Proof.
  induction i as [|i IH]; intros arr st.
  - exists arr. cbn. unfold ret. now rewrite advance_0, state_eta.
  - cbn [shuffle_from]. unfold bind, random_interval.
    destruct (IH (swap (S i) (rk_raw (rng st) (rk_pos (rng st)) mod S (S i)) arr)
                 (mkState (heap st) (advance (rng st) 1)))
      as (arr' & Hrun & Hperm).
    exists arr'. rewrite Hrun. cbn [heap rng].
    rewrite advance_advance. split; [reflexivity|].
    etransitivity; [exact Hperm|apply swap_perm].
Qed.

(** [random_sampling] on an array of at least fifty values. *)
Lemma random_sampling_run st r d :
  heap st !! r = Some (Ndarray d) -> 50 <= length d ->
  exists perm,
    Permutation perm (seq 0 (length d))
    /\ random_sampling (VRef r) st
       = (Ok (fresh (dom (heap st))),
          mkState (<[fresh (dom (heap st))
                     := Ndarray (map (fun i => nth i d 0%Q) (take 50 perm))]>
                     (heap st))
                  (advance (rng st) (length d - 1))).
Proof.
  intros Hr Hlen.
  destruct (shuffle_from_run (length d - 1) (seq 0 (length d)) st)
    as (perm & Hrun & Hperm).
  exists perm. split; [exact Hperm|].
  unfold random_sampling.
  rewrite (bind_ok _ _ _ _ _ (expect_ndarray_ok _ _ _ Hr)).
  assert (E : (length d <? 50) = false) by (apply Nat.ltb_ge; lia).
  rewrite E. unfold random_choice.
  rewrite (bind_ok _ _ _ _ _ (expect_ndarray_ok _ _ _ Hr)).
  rewrite E. unfold random_permutation.
  rewrite (bind_ok _ _ _ _ _ Hrun). reflexivity.
Qed.

Lemma random_sampling_small st r d :
  heap st !! r = Some (Ndarray d) -> length d < 50 ->
  random_sampling (VRef r) st = (Raise ValueError, st).
Proof.
  intros Hr Hlen. unfold random_sampling.
  rewrite (bind_ok _ _ _ _ _ (expect_ndarray_ok _ _ _ Hr)).
  assert (E : (length d <? 50) = true) by (apply Nat.ltb_lt; lia).
  now rewrite E.
Qed.

Lemma take_perm_bound (perm : list nat) n k :
  Permutation perm (seq 0 n) ->
  forall i, In i (take k perm) -> i < n.
Proof.
  intros Hperm i Hi. apply list_elem_of_In in Hi.
  apply elem_of_take in Hi as (j & Hj & _).
  assert (Hin : In i (seq 0 n)).
  { eapply Permutation_in; [exact Hperm|].
    apply list_elem_of_In. eapply list_elem_of_lookup_2; eauto. }
  apply in_seq in Hin. lia.
Qed.

Lemma take_perm_NoDup (perm : list nat) n k :
  Permutation perm (seq 0 n) -> NoDup (take k perm).
Proof.
  intros Hperm. apply (sublist_NoDup _ perm); [|apply sublist_take].
  rewrite Hperm. apply NoDup_seq.
Qed.

Lemma nth_repeat_lt (x : Q) n i : i < n -> nth i (repeat x n) 0%Q = x.
Proof.
  intros Hi. apply (repeat_spec n x). apply nth_In.
  now rewrite repeat_length.
Qed.

(** C5 (as amended). For every numeric sample with at least 50 elements,
    [random_sampling] returns exactly 50 elements, read at 50 pairwise
    distinct positions of the sample, so each of them is present in the
    sample (and a value is repeated in the result only when the sample
    holds it at several positions); for every sample with fewer than 50
    elements it raises [ValueError]. *)
Theorem C5_random_sampling_distinct_positions st r d :
  heap st !! r = Some (Ndarray d) ->
  (50 <= length d ->
   exists o st' res idx,
     random_sampling (VRef r) st = (Ok o, st')
     /\ heap st' !! o = Some (Ndarray res)
     /\ length res = 50
     /\ (forall x, In x res -> In x d)
     /\ NoDup idx
     /\ (forall i, In i idx -> i < length d)
     /\ res = map (fun i => nth i d 0%Q) idx)
  /\ (length d < 50 ->
      random_sampling (VRef r) st = (Raise ValueError, st)).
Proof.
  intros Hr. split; [|now apply random_sampling_small].
  intros Hlen.
  destruct (random_sampling_run st r d Hr Hlen) as (perm & Hperm & Hrun).
  pose proof (take_perm_bound perm (length d) 50 Hperm) as Hbound.
  eexists _, _, _, (take 50 perm).
  split; [exact Hrun|]. split; [apply lookup_insert_eq|].
  split; [|split; [|split; [|split; [exact Hbound|reflexivity]]]].
  - rewrite length_map, length_take, (Permutation_length Hperm), length_seq.
    lia.
  - intros x Hx. apply in_map_iff in Hx as (i & <- & Hi).
    apply nth_In. now apply Hbound.
  - now apply (take_perm_NoDup perm (length d)).
Qed.

Lemma C5_random_sampling_distinct_positions_witness :
  let d := Examples.constant50 in
  let st := Examples.state_with d in
  let st8 := Examples.state_with Examples.sample8 in
  heap st !! 1 = Some (Ndarray d)
  /\ 50 <= length d
  /\ heap st8 !! 1 = Some (Ndarray Examples.sample8)
  /\ length Examples.sample8 < 50
  /\ (exists o st' res idx,
        random_sampling (VRef 1) st = (Ok o, st')
        /\ heap st' !! o = Some (Ndarray res)
        /\ length res = 50
        /\ (forall x, In x res -> In x d)
        /\ NoDup idx
        /\ (forall i, In i idx -> i < length d)
        /\ res = map (fun i => nth i d 0%Q) idx)
  /\ random_sampling (VRef 1) st8 = (Raise ValueError, st8).
Proof.
  intros d st st8.
  assert (H50 : 50 <= length d) by (vm_compute; lia).
  assert (H8 : length Examples.sample8 < 50) by (vm_compute; lia).
  split; [reflexivity|]. split; [exact H50|].
  split; [reflexivity|]. split; [exact H8|].
  split.
  - apply (C5_random_sampling_distinct_positions st 1 d);
      [reflexivity|exact H50].
  - apply (C5_random_sampling_distinct_positions st8 1 Examples.sample8);
      [reflexivity|exact H8].
Defined.

(** C5 as stated fails: on fifty equal measurements the fifty returned
    elements are all equal, hence not free of duplicates. *)
Lemma C5_counterexample :
  50 <= length Examples.constant50
  /\ exists o st' res,
       random_sampling (VRef 1) (Examples.state_with Examples.constant50)
         = (Ok o, st')
       /\ heap st' !! o = Some (Ndarray res)
       /\ length res = 50
       /\ ~ NoDup res.
Proof.
  split; [vm_compute; lia|].
  destruct (random_sampling_run
              (Examples.state_with Examples.constant50) 1
              Examples.constant50) as (perm & Hperm & Hrun);
    [reflexivity|vm_compute; lia|].
  eexists _, _, _. split; [exact Hrun|]. split; [apply lookup_insert_eq|].
  assert (Hlen : length (take 50 perm) = 50).
  { rewrite length_take, (Permutation_length Hperm), length_seq.
    vm_compute. reflexivity. }
  split; [now rewrite length_map|].
  pose proof (take_perm_bound perm _ 50 Hperm) as Hbound.
  destruct (take 50 perm) as [|i [|j idx]]; [discriminate..|].
  cbn [map]. intros Hnd. apply NoDup_cons in Hnd as [Hnotin _].
  apply Hnotin, list_elem_of_In. left.
  unfold Examples.constant50 in *. rewrite repeat_length in Hbound.
  rewrite !nth_repeat_lt; [reflexivity|apply Hbound..]; cbn; auto.
Qed.

End SamplingFacts.

(** ** exercise1.py: the synthetic generator *)

Section GeneratorClaims.
Import Py Np Exercise1.

(** Whatever the valid size and mean, a standard deviation that is not a
    number takes the [ValueError] branch: the [or] of the source is
    decided by its first operand. *)
Lemma generate_height_data_std_dev_type size mean std_dev st :
  isinstance_int size = true -> (0 < to_Z size)%Z ->
  isinstance_int_float mean = true ->
  isinstance_int_float std_dev = false ->
  generate_height_data size mean std_dev st = (Raise ValueError, st).
Proof.
  intros Hsize Hpos Hmean Hstd. unfold generate_height_data.
  rewrite Hsize, Hmean, Hstd. cbn [negb orb].
  destruct (to_Z size <=? 0)%Z eqn:E; [apply Z.leb_le in E; lia|reflexivity].
Qed.

(** C7 (the code departs from it). A non-integer size and a non-numeric
    mean raise [TypeError], but a non-numeric standard deviation raises
    [ValueError]: the type test and the positivity test of [std_dev]
    share one [raise]. *)
Theorem C7_non_numeric_std_dev_raises_ValueError :
  (forall st,
     generate_height_data (VStr "invalid") (VInt 170) (VInt 10) st
     = (Raise TypeError, st))
  /\ (forall st,
       generate_height_data (VInt 1000) (VStr "invalid") (VInt 10) st
       = (Raise TypeError, st))
  /\ (forall st,
       generate_height_data (VInt 1000) (VInt 170) (VStr "invalid") st
       = (Raise ValueError, st)).
Proof.
  split; [reflexivity|]. split; [reflexivity|].
  intros st. now apply generate_height_data_std_dev_type.
Qed.

End GeneratorClaims.

(** ** exercise1.py: effects *)

Section EffectClaims.
Context `{SciLib}.
Import Py Np Exercise1 Spec.

Lemma expect_ndarray_cases v st :
  expect_ndarray v st = (Raise TypeError, st)
  \/ exists r d,
       v = VRef r /\ heap st !! r = Some (Ndarray d)
       /\ expect_ndarray v st = (Ok d, st).
Proof.
  destruct v as [| | | | |r]; try (now left).
  unfold expect_ndarray, bind, load.
  destruct (heap st !! r) as [[d|xs]|] eqn:E; try (now left).
  right. now exists r, d.
Qed.

Lemma length_zero_cases (d : list Q) :
  ((length d =? 0) = true /\ d = []) \/ ((length d =? 0) = false /\ d <> []).
Proof. destruct d; [left|right]; split; auto; discriminate. Qed.

Lemma same_state_frame st :
  exists h' n,
    st = mkState h' (advance (rng st) n) /\ heap st ⊆ h' /\ n = 0.
Proof.
  exists (heap st), 0. now rewrite advance_0, state_eta.
Qed.

(** What each operation does to the state, on any argument: the store
    is extended, and only [random_sampling] draws from the generator. *)
Lemma state_after_frame op st :
  exists h' n,
    state_after op st = mkState h' (advance (rng st) n)
    /\ heap st ⊆ h'
    /\ (is_subsample op = false -> n = 0).
Proof.
  assert (Hsame : forall st0, st0 = st ->
    exists h' n, st0 = mkState h' (advance (rng st) n) /\ heap st ⊆ h'
                 /\ (is_subsample op = false -> n = 0)).
  { intros st0 ->. destruct (same_state_frame st) as (h' & n & E & Hs & Hn).
    exists h', n. auto. }
  destruct op as [v|v|v|v|v m|v t]; cbn [state_after];
    destruct (expect_ndarray_cases v st) as [E|(r & d & -> & Hr & E)].
  - apply Hsame. unfold descriptive_statistics.
    now rewrite (bind_raise _ _ _ _ _ E).
  - apply Hsame. unfold descriptive_statistics.
    rewrite (bind_ok _ _ _ _ _ E). now destruct (length d =? 0).
  - apply Hsame. unfold calculate_percentile.
    now rewrite (bind_raise _ _ _ _ _ E).
  - destruct (length_zero_cases d) as [[E0 ->]|[E0 Hd]].
    + apply Hsame. unfold calculate_percentile.
      now rewrite (bind_ok _ _ _ _ _ E).
    + rewrite (calculate_percentile_run _ _ _ Hr Hd). cbn [snd].
      eexists _, 0. rewrite advance_0.
      split; [reflexivity|]. split; [apply alloc_extends|reflexivity].
  - apply Hsame. unfold identify_outliers.
    now rewrite (bind_raise _ _ _ _ _ E).
  - destruct (length_zero_cases d) as [[E0 ->]|[E0 Hd]].
    + apply Hsame. unfold identify_outliers.
      now rewrite (bind_ok _ _ _ _ _ E).
    + destruct (identify_outliers_run _ _ _ Hr Hd)
        as (o & h' & Hrun & Ho & Hfresh & Hsub).
      rewrite Hrun. cbn [snd]. exists h', 0. now rewrite advance_0.
  - apply Hsame. unfold random_sampling.
    now rewrite (bind_raise _ _ _ _ _ E).
  - destruct (Nat.lt_ge_cases (length d) 50) as [Hlen|Hlen].
    + apply Hsame. now rewrite (random_sampling_small _ _ _ Hr Hlen).
    + destruct (random_sampling_run _ _ _ Hr Hlen) as (perm & _ & Hrun).
      rewrite Hrun. cbn [snd]. eexists _, _.
      split; [reflexivity|]. split; [apply alloc_extends|discriminate].
  - apply Hsame. unfold hypothesis_testing.
    now rewrite (bind_raise _ _ _ _ _ E).
  - apply Hsame. unfold hypothesis_testing.
    rewrite (bind_ok _ _ _ _ _ E). destruct (length d =? 0); [reflexivity|].
    now destruct (negb (isinstance_int_float m)).
  - apply Hsame. unfold calculate_probability.
    now rewrite (bind_raise _ _ _ _ _ E).
  - apply Hsame. unfold calculate_probability.
    rewrite (bind_ok _ _ _ _ _ E). destruct (length d =? 0); [reflexivity|].
    now destruct (negb (isinstance_int_float t)).
Qed.

(** C8 (as amended). No operation of the summarizer mutates its input
    sample: every object of the store, the sample among them, has the
    same contents after the call as before, and [identify_outliers]
    sorts and filters a copy held in a new list.  The only effect of an
    operation is its return value, except that [random_sampling] also
    advances the process-wide random generator. *)
Theorem C8_operations_preserve_inputs op st :
  store_preserved st (state_after op st)
  /\ (forall r d, heap st !! r = Some (Ndarray d) ->
        heap (state_after op st) !! r = Some (Ndarray d))
  /\ (is_subsample op = false -> rng (state_after op st) = rng st)
  /\ (forall r d, heap st !! r = Some (Ndarray d) -> d <> [] ->
        exists o st',
          identify_outliers (VRef r) st = (Ok o, st')
          /\ heap st !! o = None
          /\ heap st' !! o = Some (PyList (List.filter (is_outlier d) (sort d)))
          /\ heap st' !! r = Some (Ndarray d)).
Proof.
  destruct (state_after_frame op st) as (h' & n & E & Hsub & Hn).
  split; [|split; [|split]].
  - unfold store_preserved. now rewrite E.
  - intros r d Hr. rewrite E. cbn [heap].
    eapply lookup_weaken; eauto.
  - intros Hop. rewrite E, (Hn Hop). cbn [rng]. apply advance_0.
  - intros r d Hr Hd.
    destruct (identify_outliers_run _ _ _ Hr Hd)
      as (o & h2 & Hrun & Ho & Hfresh & Hsub2).
    exists o, (mkState h2 (rng st)).
    split; [exact Hrun|]. split; [exact Hfresh|]. split; [exact Ho|].
    cbn [heap]. eapply lookup_weaken; eauto.
Qed.

End EffectClaims.

Lemma C8_operations_preserve_inputs_witness :
  let d := Examples.sample8 in
  let st := Examples.state_with d in
  let st' := @Spec.state_after Examples.scilib (Spec.Outliers (Py.VRef 1)) st in
  Py.heap st !! 1 = Some (Py.Ndarray d)
  /\ d <> []
  /\ Spec.is_subsample (Spec.Outliers (Py.VRef 1)) = false
  /\ Spec.store_preserved st st'
  /\ Py.heap st' !! 1 = Some (Py.Ndarray d)
  /\ Py.rng st' = Py.rng st
  /\ exists o st2,
       Exercise1.identify_outliers (Py.VRef 1) st = (Py.Ok o, st2)
       /\ Py.heap st !! o = None
       /\ Py.heap st2 !! o
          = Some (Py.PyList (List.filter (Spec.is_outlier d) (Py.sort d)))
       /\ Py.heap st2 !! 1 = Some (Py.Ndarray d).
Proof.
  intros d st st'.
  destruct (@C8_operations_preserve_inputs Examples.scilib
              (Spec.Outliers (Py.VRef 1)) st)
    as (Hstore & Hsame & Hrng & Hcopy).
  split; [reflexivity|]. split; [discriminate|]. split; [reflexivity|].
  split; [exact Hstore|].
  split; [apply Hsame; reflexivity|].
  split; [apply Hrng; reflexivity|].
  apply Hcopy; [reflexivity|discriminate].
Defined.

(** C8 as stated fails: [random_sampling] leaves the generator in another
    state than it found it. *)
Lemma C8_counterexample :
  let st := Examples.state_with Examples.constant50 in
  Py.rng (@Spec.state_after Examples.scilib (Spec.Subsample (Py.VRef 1)) st)
  <> Py.rng st.
Proof.
  intros st.
  destruct (random_sampling_run st 1 Examples.constant50)
    as (perm & _ & Hrun); [reflexivity|vm_compute; lia|].
  cbn [Spec.state_after]. rewrite Hrun. cbn [snd Py.rng].
  intros E. apply (f_equal Py.rk_pos) in E. vm_compute in E. discriminate.
Qed.

(** ** exercise2.py: who suffers more from the disease *)

Section DiseaseClaims.
Import Py Pd Exercise2 Spec.

Lemma count_rows_nonneg mask : (0 <= count_rows mask)%Z.
Proof. unfold count_rows. lia. Qed.

(** No selected row when the second mask is false everywhere. *)
Lemma count_rows_mask_and_false m l :
  (forall b, In b l -> b = false) -> count_rows (mask_and m l) = 0%Z.
Proof.
  unfold count_rows, mask_and. revert l.
  induction m as [|x m IH]; intros [|b l] Hl; try reflexivity.
  cbn [zip_with List.filter].
  rewrite (Hl b (or_introl eq_refl)), andb_false_r.
  apply IH. intros c Hc. apply Hl. now right.
Qed.

(** C9. For every frame with the columns 'Sex' and 'Disease', 'Disease'
    boolean, in which no row has the disease,
    [who_suffers_more_from_disease] raises [ZeroDivisionError]: both
    counts are zero and the percentage divides by the larger one. *)
Theorem C9_no_disease_divides_by_zero df sex l :
  get_column df "Sex" = Some sex ->
  get_column df "Disease" = Some (BoolSeries l) ->
  (forall b, In b l -> b = false) ->
  diseased "male" sex l = 0%Z
  /\ diseased "female" sex l = 0%Z
  /\ who_suffers_more_from_disease df = Raise ZeroDivisionError.
Proof.
  intros Hsex Hdis Hall.
  assert (Hm : diseased "male" sex l = 0%Z)
    by now apply count_rows_mask_and_false.
  assert (Hw : diseased "female" sex l = 0%Z)
    by now apply count_rows_mask_and_false.
  split; [exact Hm|]. split; [exact Hw|].
  unfold who_suffers_more_from_disease. rewrite Hsex, Hdis.
  cbn [is_bool_dtype negb eq_true].
  unfold diseased in Hm, Hw. rewrite Hm, Hw. reflexivity.
Qed.

Lemma C9_no_disease_divides_by_zero_witness :
  let df := [("Sex", ObjectSeries ["male"; "female"; "male"]);
             ("Disease", BoolSeries [false; false; false])] in
  get_column df "Sex" = Some (ObjectSeries ["male"; "female"; "male"])
  /\ get_column df "Disease" = Some (BoolSeries [false; false; false])
  /\ (forall b, In b [false; false; false] -> b = false)
  /\ who_suffers_more_from_disease df = Raise ZeroDivisionError.
Proof.
  intros df.
  assert (Hall : forall b, In b [false; false; false] -> b = false).
  { intros b Hb. cbn in Hb. intuition congruence. }
  split; [reflexivity|]. split; [reflexivity|]. split; [exact Hall|].
  apply (C9_no_disease_divides_by_zero df
           (ObjectSeries ["male"; "female"; "male"]) [false; false; false]);
    [reflexivity|reflexivity|exact Hall].
Defined.

(** C10. For every frame with the columns 'Sex' and 'Disease', 'Disease'
    boolean, in which as many men as women have the disease and at least
    one does, [who_suffers_more_from_disease] returns ('women', 0.0). *)
Theorem C10_tie_reports_women df sex l :
  get_column df "Sex" = Some sex ->
  get_column df "Disease" = Some (BoolSeries l) ->
  diseased "male" sex l = diseased "female" sex l ->
  (0 < diseased "male" sex l)%Z ->
  exists p,
    who_suffers_more_from_disease df = Ok ("women", p) /\ (p == 0)%Q.
Proof.
  intros Hsex Hdis Heq Hpos.
  unfold who_suffers_more_from_disease. rewrite Hsex, Hdis.
  cbn [is_bool_dtype negb eq_true].
  unfold diseased in Heq, Hpos. rewrite Heq in *.
  set (w := count_rows (mask_and (eq_str sex "female") l)) in *.
  rewrite Z.max_id, Z.min_id, Z.sub_diag. unfold truediv.
  destruct (w =? 0)%Z eqn:E0; [apply Z.eqb_eq in E0; lia|].
  assert (Hgt : (w >? w)%Z = false) by (rewrite Z.gtb_ltb; apply Z.ltb_irrefl).
  rewrite Hgt. eexists. split; [reflexivity|].
  unfold Qdiv. rewrite !Qmult_0_l. reflexivity.
Qed.

Lemma C10_tie_reports_women_witness :
  let df := [("Sex", ObjectSeries ["male"; "female"; "male"]);
             ("Disease", BoolSeries [true; true; false])] in
  let sex := ObjectSeries ["male"; "female"; "male"] in
  get_column df "Sex" = Some sex
  /\ get_column df "Disease" = Some (BoolSeries [true; true; false])
  /\ diseased "male" sex [true; true; false]
     = diseased "female" sex [true; true; false]
  /\ (0 < diseased "male" sex [true; true; false])%Z
  /\ exists p,
       who_suffers_more_from_disease df = Ok ("women", p) /\ (p == 0)%Q.
Proof.
  intros df sex.
  split; [reflexivity|]. split; [reflexivity|]. split; [reflexivity|].
  split; [reflexivity|].
  apply (C10_tie_reports_women df sex [true; true; false]); reflexivity.
Defined.

End DiseaseClaims.

(** * Further properties of the two scripts *)

(** ** exercise1.py: where the statistics lie *)

Section RangeFacts.
Context `{SciLib}.
Import Py Np Exercise1 Spec.







End RangeFacts.

Section MedianFacts.
Import Py Np Exercise1 Spec.



End MedianFacts.

Section StatisticsProperties.
Context `{SciLib}.
Import Py Np Exercise1 Spec.





End StatisticsProperties.






(** ** exercise1.py: more on subsampling and exceedance *)

Section SamplingProperties.
Import Py Np Exercise1 Spec.

Lemma map_nth_seq (d : list Q) :
  map (fun i => nth i d 0%Q) (seq 0 (length d)) = d.
Proof.
  induction d as [|x d IH]; [reflexivity|].
  cbn [length seq map nth]. f_equal.
  rewrite <- seq_shift, map_map. exact IH.
Qed.

(** X5. The fifty values returned by [random_sampling] form a
    sub-multiset of the sample: no value is returned more often than the
    sample holds it.  When the sample has exactly fifty values, the
    result is a rearrangement of the whole sample. *)
Theorem random_sampling_submultiset st r d :
  heap st !! r = Some (Ndarray d) -> 50 <= length d ->
  exists o st' res,
    random_sampling (VRef r) st = (Ok o, st')
    /\ heap st' !! o = Some (Ndarray res)
    /\ res ⊆+ d
    /\ (length d = 50 -> Permutation res d).
Proof.
  intros Hr Hlen.
  destruct (random_sampling_run st r d Hr Hlen) as (perm & Hperm & Hrun).
  eexists _, _, _. split; [exact Hrun|]. split; [apply lookup_insert_eq|].
  assert (Hsub : map (fun i => nth i d 0%Q) (take 50 perm) ⊆+ d).
  { apply submseteq_sublist_l.
    exists (map (fun i => nth i d 0%Q) perm). split.
    - apply (fmap_sublist (fun i => nth i d 0%Q)), sublist_take.
    - rewrite Hperm. now rewrite map_nth_seq. }
  split; [exact Hsub|].
  intros H50. apply submseteq_length_Permutation; [exact Hsub|].
  rewrite length_map, length_take, (Permutation_length Hperm), length_seq.
  lia.
Qed.



Lemma calculate_probability_run st r d t :
  heap st !! r = Some (Ndarray d) -> d <> [] ->
  isinstance_int_float t = true ->
  calculate_probability (VRef r) t st
  = (Ok (inject_Z (Z.of_nat (count_above (to_Q t) d))
         / inject_Z (Z.of_nat (length d)))%Q, st).
Proof.
  intros Hr Hd Ht. unfold calculate_probability.
  rewrite (bind_ok _ _ _ _ _ (expect_ndarray_ok _ _ _ Hr)).
  rewrite (nonempty_length _ Hd), Ht. cbn [negb].
  now rewrite sum_bool_greater.
Qed.


End SamplingProperties.

Lemma random_sampling_submultiset_witness :
  let d := Examples.constant50 in
  let st := Examples.state_with d in
  Py.heap st !! 1 = Some (Py.Ndarray d)
  /\ 50 <= length d
  /\ length d = 50
  /\ exists o st' res,
       Exercise1.random_sampling (Py.VRef 1) st = (Py.Ok o, st')
       /\ Py.heap st' !! o = Some (Py.Ndarray res)
       /\ res ⊆+ d
       /\ Permutation res d.
Proof.
  intros d st.
  assert (H50 : length d = 50) by (vm_compute; reflexivity).
  split; [reflexivity|]. split; [rewrite H50; lia|]. split; [exact H50|].
  destruct (random_sampling_submultiset st 1 d)
    as (o & st' & res & Hrun & Ho & Hsub & Hperm);
    [reflexivity|rewrite H50; lia|].
  exists o, st', res. auto.
Defined.


(** ** exercise1.py: argument validation *)

Section ValidationProperties.
Context `{SciLib}.
Import Py Np Exercise1 Spec Conditions.

Lemma expect_ndarray_reject v st :
  (forall r d, v = VRef r -> heap st !! r <> Some (Ndarray d)) ->
  expect_ndarray v st = (Raise TypeError, st).
Proof.
  intros Hv.
  destruct (expect_ndarray_cases v st) as [E|(r & d & -> & Hr & _)];
    [exact E|].
  exfalso. exact (Hv r d eq_refl Hr).
Qed.

(** X7. Every function of the summarizer raises [TypeError] on an
    argument that is not a NumPy array (a string, a number, [None], a
    Python list), whatever the companion argument, and leaves the state
    untouched. *)
Theorem non_array_rejected v st :
  (forall r d, v = VRef r -> heap st !! r <> Some (Ndarray d)) ->
  descriptive_statistics v st = (Raise TypeError, st)
  /\ calculate_percentile v st = (Raise TypeError, st)
  /\ identify_outliers v st = (Raise TypeError, st)
  /\ random_sampling v st = (Raise TypeError, st)
  /\ (forall m, hypothesis_testing v m st = (Raise TypeError, st))
  /\ (forall t, calculate_probability v t st = (Raise TypeError, st)).
Proof.
  intros Hv. pose proof (expect_ndarray_reject v st Hv) as E.
  repeat split; intros;
    unfold descriptive_statistics, calculate_percentile, identify_outliers,
      random_sampling, hypothesis_testing, calculate_probability;
    now rewrite (bind_raise _ _ _ _ _ E).
Qed.

(** X8. On a non-empty array, a companion argument that is not an [int]
    or a [float] makes [hypothesis_testing] and [calculate_probability]
    raise [TypeError], with the state untouched; a [bool] is accepted as
    a number. *)
Theorem companion_argument_checked st r d v :
  heap st !! r = Some (Ndarray d) -> d <> [] ->
  isinstance_int_float v = false ->
  hypothesis_testing (VRef r) v st = (Raise TypeError, st)
  /\ calculate_probability (VRef r) v st = (Raise TypeError, st)
  /\ (forall b, exists t p,
        hypothesis_testing (VRef r) (VBool b) st = (Ok t, st)
        /\ calculate_probability (VRef r) (VBool b) st = (Ok p, st)).
Proof.
  intros Hr Hd Hv.
  pose proof (expect_ndarray_ok _ _ _ Hr) as E.
  split; [|split].
  - unfold hypothesis_testing. rewrite (bind_ok _ _ _ _ _ E).
    now rewrite (nonempty_length _ Hd), Hv.
  - unfold calculate_probability. rewrite (bind_ok _ _ _ _ _ E).
    now rewrite (nonempty_length _ Hd), Hv.
  - intros b. eexists _, _. split.
    + unfold hypothesis_testing. rewrite (bind_ok _ _ _ _ _ E).
      now rewrite (nonempty_length _ Hd).
    + unfold calculate_probability. rewrite (bind_ok _ _ _ _ _ E).
      now rewrite (nonempty_length _ Hd).
Qed.

Lemma generate_height_data_run size mean std_dev st :
  valid_generator_arguments size mean std_dev ->
  generate_height_data size mean std_dev st
  = random_normal (to_Q mean) (to_Q std_dev) (Z.to_nat (to_Z size)) st.
Proof.
  intros (Hs & Hpos & Hm & Hd & Hdpos). unfold generate_height_data.
  rewrite Hs, Hm, Hd. cbn [negb orb].
  destruct (to_Z size <=? 0)%Z eqn:E; [apply Z.leb_le in E; lia|].
  destruct (Qle_bool (to_Q std_dev) 0) eqn:E2; [|reflexivity].
  apply Qle_bool_iff in E2. exfalso. exact (Qlt_not_le _ _ Hdpos E2).
Qed.

Lemma generate_height_data_invalid size mean std_dev st :
  ~ valid_generator_arguments size mean std_dev ->
  exists e, generate_height_data size mean std_dev st = (Raise e, st).
Proof.
  intros Hinv. unfold generate_height_data.
  destruct (isinstance_int size) eqn:Hs; cbn [negb]; [|now eexists].
  destruct (to_Z size <=? 0)%Z eqn:E; [now eexists|].
  destruct (isinstance_int_float mean) eqn:Hm; cbn [negb]; [|now eexists].
  destruct (isinstance_int_float std_dev) eqn:Hd; cbn [negb orb];
    [|now eexists].
  destruct (Qle_bool (to_Q std_dev) 0) eqn:E2; [now eexists|].
  exfalso. apply Hinv. unfold valid_generator_arguments.
  apply Z.leb_gt in E. repeat split; auto.
  apply Qlt_bool_iff. unfold Qlt_bool. now rewrite E2.
Qed.

(** X9. [generate_height_data] succeeds when [size] is a positive
    integer, [mean] a number and [std_dev] a positive number: it returns
    a new array of exactly [size] values, leaves every existing object as
    it was and advances the generator by [size] draws.  Whenever one of
    the checks of the source fails, it raises an exception and the state,
    generator included, is untouched. *)
Theorem generate_height_data_outcome n mean std_dev st :
  ((0 < n)%Z -> isinstance_int_float mean = true ->
   isinstance_int_float std_dev = true -> (0 < to_Q std_dev)%Q ->
   exists a st' d,
     generate_height_data (VInt n) mean std_dev st = (Ok a, st')
     /\ heap st !! a = None
     /\ heap st' !! a = Some (Ndarray d)
     /\ length d = Z.to_nat n
     /\ store_preserved st st'
     /\ rng st' = advance (rng st) (Z.to_nat n))
  /\ (forall size,
        ~ valid_generator_arguments size mean std_dev ->
        exists e, generate_height_data size mean std_dev st = (Raise e, st)).
Proof.
  split; [|intros size; apply generate_height_data_invalid].
  intros Hn Hm Hd Hpos.
  assert (Hvalid : valid_generator_arguments (VInt n) mean std_dev)
    by (repeat split; auto).
  rewrite (generate_height_data_run _ _ _ _ Hvalid).
  unfold random_normal, alloc. cbn [heap rng to_Z].
  eexists _, _, _. split; [reflexivity|].
  split; [apply fresh_heap_None|]. cbn [heap rng].
  split; [apply lookup_insert_eq|].
  split; [now rewrite length_map, length_seq|].
  split; [apply alloc_extends|reflexivity].
Qed.

End ValidationProperties.

Lemma non_array_rejected_witness :
  let st := Examples.state_with Examples.sample8 in
  let v := Py.VStr "invalid" in
  (forall r d, v = Py.VRef r -> Py.heap st !! r <> Some (Py.Ndarray d))
  /\ @Exercise1.descriptive_statistics Examples.scilib v st
     = (Py.Raise Py.TypeError, st)
  /\ Exercise1.calculate_percentile v st = (Py.Raise Py.TypeError, st)
  /\ Exercise1.identify_outliers v st = (Py.Raise Py.TypeError, st)
  /\ Exercise1.random_sampling v st = (Py.Raise Py.TypeError, st)
  /\ (forall m, @Exercise1.hypothesis_testing Examples.scilib v m st
                = (Py.Raise Py.TypeError, st))
  /\ (forall t, Exercise1.calculate_probability v t st
                = (Py.Raise Py.TypeError, st)).
Proof.
  intros st v.
  assert (Hv : forall r d, v = Py.VRef r ->
            Py.heap st !! r <> Some (Py.Ndarray d)) by discriminate.
  split; [exact Hv|].
  exact (@non_array_rejected Examples.scilib v st Hv).
Defined.

Lemma companion_argument_checked_witness :
  let d := Examples.sample8 in
  let st := Examples.state_with d in
  let v := Py.VStr "invalid" in
  Py.heap st !! 1 = Some (Py.Ndarray d)
  /\ d <> []
  /\ Py.isinstance_int_float v = false
  /\ @Exercise1.hypothesis_testing Examples.scilib (Py.VRef 1) v st
     = (Py.Raise Py.TypeError, st)
  /\ Exercise1.calculate_probability (Py.VRef 1) v st
     = (Py.Raise Py.TypeError, st)
  /\ (forall b, exists t p,
        @Exercise1.hypothesis_testing Examples.scilib
          (Py.VRef 1) (Py.VBool b) st = (Py.Ok t, st)
        /\ Exercise1.calculate_probability (Py.VRef 1) (Py.VBool b) st
           = (Py.Ok p, st)).
Proof.
  intros d st v.
  split; [reflexivity|]. split; [discriminate|]. split; [reflexivity|].
  apply (@companion_argument_checked Examples.scilib st 1 d v);
    [reflexivity|discriminate|reflexivity].
Defined.

Lemma generate_height_data_outcome_witness :
  let st := Examples.state_with Examples.sample8 in
  (0 < 1000)%Z
  /\ Py.isinstance_int_float (Py.VInt 170) = true
  /\ Py.isinstance_int_float (Py.VFloat 10) = true
  /\ (0 < Py.to_Q (Py.VFloat 10))%Q
  /\ ~ Conditions.valid_generator_arguments
         (Py.VInt 0) (Py.VInt 170) (Py.VFloat 10)
  /\ (exists a st' d,
        Exercise1.generate_height_data
          (Py.VInt 1000) (Py.VInt 170) (Py.VFloat 10) st = (Py.Ok a, st')
        /\ Py.heap st !! a = None
        /\ Py.heap st' !! a = Some (Py.Ndarray d)
        /\ length d = 1000
        /\ Spec.store_preserved st st'
        /\ Py.rng st' = Py.advance (Py.rng st) 1000)
  /\ (exists e,
        Exercise1.generate_height_data
          (Py.VInt 0) (Py.VInt 170) (Py.VFloat 10) st = (Py.Raise e, st)).
Proof.
  intros st.
  assert (Hinv : ~ Conditions.valid_generator_arguments
                     (Py.VInt 0) (Py.VInt 170) (Py.VFloat 10)).
  { intros (_ & Hpos & _). cbn in Hpos. lia. }
  destruct (generate_height_data_outcome 1000 (Py.VInt 170) (Py.VFloat 10) st)
    as [Hok _].
  destruct (generate_height_data_outcome 0 (Py.VInt 170) (Py.VFloat 10) st)
    as [_ Hbad].
  split; [lia|]. split; [reflexivity|]. split; [reflexivity|].
  split; [reflexivity|]. split; [exact Hinv|]. split.
  - apply Hok; [lia|reflexivity|reflexivity|reflexivity].
  - apply (Hbad (Py.VInt 0) Hinv).
Defined.

(** ** exercise1.py: the histogram and the driver *)

Section ScriptFacts.
Context `{SciLib} `{Io.Matplotlib}.
Import Py Np Exercise1 Spec Io Exercise1Script.

Lemma io_bind_done {A B} (m : Io.M A) (k : A -> Io.M B) w a w' :
  m w = (Done a, w') -> Io.bind m k w = k a w'.
Proof. intros E. unfold Io.bind. now rewrite E. Qed.

Lemma io_bind_failed {A B} (m : Io.M A) (k : A -> Io.M B) w f w' :
  m w = (Failed f, w') -> Io.bind m k w = (Failed f, w').
Proof. intros E. unfold Io.bind. now rewrite E. Qed.

Lemma lift_done {A} (m : Py.M A) st tr a st' :
  m st = (Ok a, st') -> lift m (mkWorld st tr) = (Done a, mkWorld st' tr).
Proof. intros E. unfold lift. cbn [py trace]. now rewrite E. Qed.

Lemma lift_failed {A} (m : Py.M A) st tr e st' :
  m st = (Raise e, st') ->
  lift m (mkWorld st tr) = (Failed (Python e), mkWorld st' tr).
Proof. intros E. unfold lift. cbn [py trace]. now rewrite E. Qed.

Lemma plt_done call st tr :
  plt_fails tr call = None ->
  plt call (mkWorld st tr) = (Done tt, mkWorld st (tr ++ [Plotted call])).
Proof. intros E. unfold plt. cbn [py trace]. now rewrite E. Qed.

Lemma descriptive_statistics_run st r d :
  heap st !! r = Some (Ndarray d) -> d <> [] ->
  descriptive_statistics (VRef r) st = (Ok (mean d, std d, median d), st).
Proof.
  intros Hr Hd. unfold descriptive_statistics.
  rewrite (bind_ok _ _ _ _ _ (expect_ndarray_ok _ _ _ Hr)).
  now rewrite (nonempty_length _ Hd).
Qed.

Lemma hypothesis_testing_run st r d m :
  heap st !! r = Some (Ndarray d) -> d <> [] ->
  isinstance_int_float m = true ->
  hypothesis_testing (VRef r) m st = (Ok (ttest_1samp d (to_Q m)), st).
Proof.
  intros Hr Hd Hm. unfold hypothesis_testing.
  rewrite (bind_ok _ _ _ _ _ (expect_ndarray_ok _ _ _ Hr)).
  now rewrite (nonempty_length _ Hd), Hm.
Qed.

(** The events of a histogram of [d] that is drawn to the end. *)
Lemma visualise_histogram_run st tr r d :
  heap st !! r = Some (Ndarray d) -> d <> [] ->
  (forall t c, plt_fails t c = None) ->
  visualise_histogram (VRef r) (mkWorld st tr)
  = (Done tt,
     mkWorld st
       (tr ++ [Plotted (Hist (Pd.FloatSeries d) 8
                          [("linewidth", "0.5"); ("edgecolor", "white")]);
               Plotted (Title "Histogram of Height");
               Plotted (XLabel "Height [cm]");
               Plotted (YLabel "Count");
               Plotted Show])).
Proof.
  intros Hr Hd Hplt. unfold visualise_histogram.
  rewrite (io_bind_done _ _ _ _ _
             (lift_done _ _ _ _ _ (expect_ndarray_ok _ _ _ Hr))).
  rewrite (nonempty_length _ Hd).
  do 4 (rewrite (io_bind_done _ _ _ _ _ (plt_done _ _ _ (Hplt _ _)))).
  rewrite (plt_done _ _ _ (Hplt _ _)).
  now rewrite <- !app_assoc.
Qed.

(** X10. [visualise_histogram] of exercise1.py validates its argument
    like the other functions: [TypeError] on a non-array and
    [ValueError] on an empty array, in both cases before anything is
    drawn.  On a non-empty array, whatever the plotting library does, the
    first call is the histogram of the whole sample in 8 bins and the
    state of the program is left as it was. *)
Theorem visualise_histogram_validates v w :
  ((forall r d, v = VRef r -> heap (py w) !! r <> Some (Ndarray d)) ->
   visualise_histogram v w = (Failed (Python TypeError), w))
  /\ (forall r, v = VRef r -> heap (py w) !! r = Some (Ndarray []) ->
      visualise_histogram v w = (Failed (Python ValueError), w))
  /\ (forall r d, v = VRef r -> heap (py w) !! r = Some (Ndarray d) ->
      d <> [] ->
      exists res rest,
        visualise_histogram v w
        = (res, mkWorld (py w)
                  (trace w
                   ++ Plotted (Hist (Pd.FloatSeries d) 8
                                 [("linewidth", "0.5"); ("edgecolor", "white")])
                   :: rest))).
Proof.
  destruct w as [st tr]. cbn [py trace]. split; [|split].
  - intros Hv. unfold visualise_histogram.
    now rewrite (io_bind_failed _ _ _ _ _
                   (lift_failed _ _ _ _ _ (expect_ndarray_reject _ _ Hv))).
  - intros r -> Hr. unfold visualise_histogram.
    now rewrite (io_bind_done _ _ _ _ _
                   (lift_done _ _ _ _ _ (expect_ndarray_ok _ _ _ Hr))).
  - intros r d -> Hr Hd. unfold visualise_histogram.
    rewrite (io_bind_done _ _ _ _ _
               (lift_done _ _ _ _ _ (expect_ndarray_ok _ _ _ Hr))).
    rewrite (nonempty_length _ Hd).
    unfold Io.bind, plt. cbn [py trace].
    repeat match goal with
           | |- context [plt_fails ?t ?c] =>
               destruct (plt_fails t c); cbn [py trace]
           end;
      eexists _, _; rewrite <- ?app_assoc; cbn [app]; reflexivity.
Qed.

End ScriptFacts.

Section DriverFacts.
Context `{SciLib} `{Io.Matplotlib}.
Import Py Np Exercise1 Spec Io Exercise1Script.

Lemma print_done args st tr :
  print args (mkWorld st tr) = (Done tt, mkWorld st (tr ++ [Printed args])).
Proof. reflexivity. Qed.

Lemma plt_keeps_state call w res w' :
  plt call w = (res, w') -> py w' = py w.
Proof.
  unfold plt. destruct (plt_fails (trace w) call); intros E;
    inversion E; reflexivity.
Qed.

(** Plotting the histogram never touches the store or the generator, and
    it always comes to an end. *)
Lemma visualise_histogram_cases st tr r d :
  heap st !! r = Some (Ndarray d) -> d <> [] ->
  (exists tr', visualise_histogram (VRef r) (mkWorld st tr)
               = (Done tt, mkWorld st tr'))
  \/ (exists name tr', visualise_histogram (VRef r) (mkWorld st tr)
                       = (Failed (Library name), mkWorld st tr')).
Proof.
  intros Hr Hd. unfold visualise_histogram.
  rewrite (io_bind_done _ _ _ _ _
             (lift_done _ _ _ _ _ (expect_ndarray_ok _ _ _ Hr))).
  rewrite (nonempty_length _ Hd).
  unfold Io.bind, plt. cbn [py trace].
  repeat match goal with
         | |- context [plt_fails ?t ?c] =>
             destruct (plt_fails t c); cbn [py trace]
         end;
    solve [left; eexists; reflexivity | right; eexists _, _; reflexivity].
Qed.

Lemma calculate_percentile_ok st a d :
  heap st !! a = Some (Ndarray d) -> d <> [] ->
  exists p st',
    calculate_percentile (VRef a) st = (Ok p, st')
    /\ heap st' !! p = Some (Ndarray [p25 d; p50 d; p75 d])
    /\ heap st' !! a = Some (Ndarray d).
Proof.
  intros Ha Hd. eexists _, _.
  split; [apply (calculate_percentile_run st a d Ha Hd)|]. cbn [heap].
  split; [apply lookup_insert_eq|].
  rewrite lookup_insert_ne; [exact Ha|]. eapply fresh_heap_ne; eauto.
Qed.

Lemma identify_outliers_ok st a d :
  heap st !! a = Some (Ndarray d) -> d <> [] ->
  exists o st',
    identify_outliers (VRef a) st = (Ok o, st')
    /\ heap st' !! o = Some (PyList (List.filter (is_outlier d) (sort d)))
    /\ heap st' !! a = Some (Ndarray d).
Proof.
  intros Ha Hd.
  destruct (identify_outliers_run st a d Ha Hd) as (o & h' & Hrun & Ho & _ & Hsub).
  exists o, (mkState h' (rng st)). split; [exact Hrun|]. split; [exact Ho|].
  cbn [heap]. eapply lookup_weaken; eauto.
Qed.

Lemma random_sampling_ok st a d :
  heap st !! a = Some (Ndarray d) -> 50 <= length d ->
  exists o st' smp,
    random_sampling (VRef a) st = (Ok o, st')
    /\ heap st' !! o = Some (Ndarray smp)
    /\ length smp = 50
    /\ heap st' !! a = Some (Ndarray d).
Proof.
  intros Ha Hlen.
  destruct (random_sampling_run st a d Ha Hlen) as (perm & Hperm & Hrun).
  eexists _, _, _. split; [exact Hrun|]. cbn [heap].
  split; [apply lookup_insert_eq|]. split.
  - rewrite length_map, length_take, (Permutation_length Hperm), length_seq.
    lia.
  - rewrite lookup_insert_ne; [exact Ha|]. eapply fresh_heap_ne; eauto.
Qed.

End DriverFacts.

Section DriverProperties.
Context `{SciLib} `{Io.Matplotlib}.
Import Py Np Exercise1 Spec Io Exercise1Script.

(** X11. The driver of exercise1.py never runs to its end.  For every
    initial state and every plotting library it stops with an exception;
    when no plotting call fails, the exception is the [IndexError] of
    [calculate_probability(height_data)[1]]: the statistics of the 1000
    generated values, the histogram, the percentiles, the outliers, the
    subsample and the T-statistic have been printed or drawn, and the
    lines "Probability-value" and "Calculate Probability" never are. *)
Theorem main_stops_with_an_exception w :
  exists f w',
    main w = (Failed f, w')
    /\ ((forall t c, plt_fails t c = None) ->
        f = Python IndexError
        /\ exists d smp,
             length d = 1000 /\ length smp = 50
             /\ trace w'
                = trace w
                  ++ [Printed [PStr "Statistics:"];
                      Printed [PStr "Mean: "; PNum (mean d)];
                      Printed [PStr "Standard Deviation: "; PNum (std d)];
                      Printed [PStr "Median: "; PNum (median d)];
                      Plotted (Hist (Pd.FloatSeries d) 8
                                 [("linewidth", "0.5"); ("edgecolor", "white")]);
                      Plotted (Title "Histogram of Height");
                      Plotted (XLabel "Height [cm]");
                      Plotted (YLabel "Count");
                      Plotted Show;
                      Printed [PStr (nl "Percentiles:")];
                      Printed [PStr "25th percentile: "; PNum (p25 d)];
                      Printed [PStr "50th percentile: "; PNum (p50 d)];
                      Printed [PStr "75th percentile: "; PNum (p75 d)];
                      Printed [PStr (nl "Outliers:")];
                      Printed [PSeq (List.filter (is_outlier d) (sort d))];
                      Printed [PStr (nl "Random Sampling:")];
                      Printed [PSeq smp];
                      Printed [PStr (nl "Hypothesis Testing:")];
                      Printed [PStr "T-statistic: ";
                               PNum (fst (ttest_1samp d 170))]]).
Proof.
  destruct w as [st0 tr0]. cbn [trace].
  destruct (generate_height_data_outcome 1000 (VInt 170) (VInt 10) st0)
    as [Hgen _].
  destruct Hgen as (a & st1 & d & Hrun & _ & Ha & Hlen & _ & _);
    [lia|reflexivity|reflexivity|reflexivity|].
  assert (Hd : d <> []) by (intros ->; cbn [length] in Hlen; lia).
  assert (H50 : 50 <= length d) by lia.
  assert (H1000 : length d = 1000) by lia.
  clear Hlen.
  unfold main.
  rewrite (io_bind_done _ _ _ _ _ (lift_done _ _ _ _ _ Hrun)).
  rewrite (io_bind_done _ _ _ _ _ (print_done _ _ _)).
  do 3 (rewrite (io_bind_done _ _ _ _ _
                   (lift_done _ _ _ _ _ (descriptive_statistics_run _ _ _ Ha Hd)));
        rewrite (io_bind_done _ _ _ _ _ (print_done _ _ _))).
  cbn [fst snd].
  match goal with
  | |- context [Io.bind (visualise_histogram (VRef a)) _ (mkWorld st1 ?tr)] =>
      set (tr4 := tr);
      destruct (visualise_histogram_cases st1 tr4 a d Ha Hd)
        as [(tr5 & Evh)|(name & tr5 & Evh)];
      pose proof (visualise_histogram_run st1 tr4 a d Ha Hd) as Hquiet
  end.
  2:{ rewrite (io_bind_failed _ _ _ _ _ Evh).
      eexists _, _. split; [reflexivity|].
      intros Hplt. rewrite (Hquiet Hplt) in Evh. discriminate. }
  rewrite (io_bind_done _ _ _ _ _ Evh).
  rewrite (io_bind_done _ _ _ _ _ (print_done _ _ _)).
  destruct (calculate_percentile_ok st1 a d Ha Hd) as (p1 & st2 & R1 & Hp1 & Ha2).
  rewrite (io_bind_done _ _ _ _ _ (lift_done _ _ _ _ _ R1)).
  rewrite (io_bind_done _ _ _ (p25 d) _
             (lift_done _ _ _ _ _ (getitem_ok _ _ _ 0 _ Hp1 eq_refl))).
  rewrite (io_bind_done _ _ _ _ _ (print_done _ _ _)).
  destruct (calculate_percentile_ok st2 a d Ha2 Hd) as (p2 & st3 & R2 & Hp2 & Ha3).
  rewrite (io_bind_done _ _ _ _ _ (lift_done _ _ _ _ _ R2)).
  rewrite (io_bind_done _ _ _ (p50 d) _
             (lift_done _ _ _ _ _ (getitem_ok _ _ _ 1 _ Hp2 eq_refl))).
  rewrite (io_bind_done _ _ _ _ _ (print_done _ _ _)).
  destruct (calculate_percentile_ok st3 a d Ha3 Hd) as (p3 & st4 & R3 & Hp3 & Ha4).
  rewrite (io_bind_done _ _ _ _ _ (lift_done _ _ _ _ _ R3)).
  rewrite (io_bind_done _ _ _ (p75 d) _
             (lift_done _ _ _ _ _ (getitem_ok _ _ _ 2 _ Hp3 eq_refl))).
  rewrite (io_bind_done _ _ _ _ _ (print_done _ _ _)).
  rewrite (io_bind_done _ _ _ _ _ (print_done _ _ _)).
  destruct (identify_outliers_ok st4 a d Ha4 Hd) as (o & st5 & R4 & Ho & Ha5).
  rewrite (io_bind_done _ _ _ _ _ (lift_done _ _ _ _ _ R4)).
  rewrite (io_bind_done _ _ _ _ _
             (lift_done _ _ _ _ _ (load_list_ok _ _ _ Ho))).
  rewrite (io_bind_done _ _ _ _ _ (print_done _ _ _)).
  rewrite (io_bind_done _ _ _ _ _ (print_done _ _ _)).
  destruct (random_sampling_ok st5 a d Ha5 H50)
    as (o2 & st6 & smp & R5 & Ho2 & Hsmp & Ha6).
  rewrite (io_bind_done _ _ _ _ _ (lift_done _ _ _ _ _ R5)).
  rewrite (io_bind_done _ _ _ _ _
             (lift_done _ _ _ _ _ (expect_ndarray_ok _ _ _ Ho2))).
  rewrite (io_bind_done _ _ _ _ _ (print_done _ _ _)).
  rewrite (io_bind_done _ _ _ _ _ (print_done _ _ _)).
  rewrite (io_bind_done _ _ _ _ _
             (lift_done _ _ _ _ _
                (hypothesis_testing_run _ _ _ (VInt 170) Ha6 Hd eq_refl))).
  rewrite (io_bind_done _ _ _ _ _ (print_done _ _ _)).
  rewrite (io_bind_done _ _ _ _ _
             (lift_done _ _ _ _ _
                (calculate_probability_run _ _ _ (VInt 180) Ha6 Hd eq_refl))).
  rewrite (io_bind_failed (scalar_getitem _ 1) _ _ (Python IndexError) _
             eq_refl).
  eexists _, _. split; [reflexivity|].
  intros Hplt. split; [reflexivity|].
  rewrite (Hquiet Hplt) in Evh. inversion Evh as [Etr]. clear Evh.
  exists d, smp. split; [exact H1000|]. split; [exact Hsmp|].
  cbn [trace]. subst tr4. rewrite <- !app_assoc. reflexivity.
Qed.

End DriverProperties.

Lemma visualise_histogram_validates_witness :
  let w := ScriptExamples.world_with Examples.sample8 in
  let w0 := ScriptExamples.world_with [] in
  let hist :=
    Io.Plotted (Io.Hist (Pd.FloatSeries Examples.sample8) 8
                  [("linewidth", "0.5"); ("edgecolor", "white")]) in
  (forall r d, Py.VStr "invalid" = Py.VRef r ->
     Py.heap (Io.py w) !! r <> Some (Py.Ndarray d))
  /\ Py.heap (Io.py w0) !! 1 = Some (Py.Ndarray [])
  /\ Py.heap (Io.py w) !! 1 = Some (Py.Ndarray Examples.sample8)
  /\ Examples.sample8 <> []
  /\ @Exercise1Script.visualise_histogram ScriptExamples.headless
       (Py.VStr "invalid") w
     = (Io.Failed (Io.Python Py.TypeError), w)
  /\ @Exercise1Script.visualise_histogram ScriptExamples.headless
       (Py.VRef 1) w0
     = (Io.Failed (Io.Python Py.ValueError), w0)
  /\ exists res rest,
       @Exercise1Script.visualise_histogram ScriptExamples.headless
         (Py.VRef 1) w
       = (res, Io.mkWorld (Io.py w) (Io.trace w ++ hist :: rest)).
Proof.
  intros w w0 hist.
  assert (Hv : forall r d, Py.VStr "invalid" = Py.VRef r ->
            Py.heap (Io.py w) !! r <> Some (Py.Ndarray d)) by discriminate.
  split; [exact Hv|]. split; [reflexivity|]. split; [reflexivity|].
  split; [discriminate|].
  destruct (@visualise_histogram_validates ScriptExamples.headless
              (Py.VStr "invalid") w) as [Htype _].
  destruct (@visualise_histogram_validates ScriptExamples.headless
              (Py.VRef 1) w0) as (_ & Hempty & _).
  destruct (@visualise_histogram_validates ScriptExamples.headless
              (Py.VRef 1) w) as (_ & _ & Hdraw).
  split; [exact (Htype Hv)|].
  split; [apply (Hempty 1); reflexivity|].
  apply (Hdraw 1 Examples.sample8); [reflexivity|reflexivity|discriminate].
Defined.

Lemma main_stops_with_an_exception_witness :
  let w := ScriptExamples.world_with Examples.sample8 in
  (forall t c, @Io.plt_fails ScriptExamples.quiet t c = None)
  /\ exists w',
       @Exercise1Script.main Examples.scilib ScriptExamples.quiet w
       = (Io.Failed (Io.Python Py.IndexError), w').
Proof.
  intros w.
  assert (Hquiet : forall t c, @Io.plt_fails ScriptExamples.quiet t c = None)
    by reflexivity.
  split; [exact Hquiet|].
  destruct (@main_stops_with_an_exception
              Examples.scilib ScriptExamples.quiet w)
    as (f & w' & Hrun & Hf).
  destruct (Hf Hquiet) as [-> _].
  exists w'. exact Hrun.
Defined.

(** ** exercise2.py: the comparison of the sexes *)

Section DiseaseProperties.
Import Py Pd Exercise2 Spec.

(** X12. [who_suffers_more_from_disease] checks the columns before the
    dtype: a frame without 'Sex' or without 'Disease' raises
    [ValueError] (even when the 'Disease' column that is present is not
    boolean), and a frame with both columns whose 'Disease' is not
    boolean raises [TypeError]. *)
Theorem who_suffers_validation df :
  (get_column df "Sex" = None \/ get_column df "Disease" = None ->
   who_suffers_more_from_disease df = Raise ValueError)
  /\ (forall sex disease,
        get_column df "Sex" = Some sex ->
        get_column df "Disease" = Some disease ->
        is_bool_dtype disease = false ->
        who_suffers_more_from_disease df = Raise TypeError).
Proof.
  split.
  - intros [E|E]; unfold who_suffers_more_from_disease; rewrite E;
      [reflexivity|now destruct (get_column df "Sex")].
  - intros sex disease Es Ed Hb. unfold who_suffers_more_from_disease.
    now rewrite Es, Ed, Hb.
Qed.

Lemma percentage_in_range lo hi :
  (0 <= lo)%Z -> (lo <= hi)%Z -> (0 < hi)%Z ->
  (0 <= inject_Z (hi - lo) / inject_Z hi * 100)%Q
  /\ (inject_Z (hi - lo) / inject_Z hi * 100 <= 100)%Q.
Proof.
  intros H0 Hle Hpos.
  assert (Hh : (0 < inject_Z hi)%Q).
  { change 0%Q with (inject_Z 0). now rewrite <- Zlt_Qlt. }
  assert (Hd0 : (0 <= inject_Z (hi - lo))%Q).
  { change 0%Q with (inject_Z 0). rewrite <- Zle_Qle. lia. }
  assert (Hd1 : (inject_Z (hi - lo) <= inject_Z hi)%Q).
  { rewrite <- Zle_Qle. lia. }
  assert (A : (0 <= inject_Z (hi - lo) / inject_Z hi)%Q).
  { apply Qle_shift_div_l; [exact Hh|]. lra. }
  assert (B : (inject_Z (hi - lo) / inject_Z hi <= 1)%Q).
  { apply Qle_shift_div_r; [exact Hh|]. lra. }
  split; lra.
Qed.

(** X13. On a frame with both columns and a boolean 'Disease', let [men]
    and [women] be the numbers of diseased rows whose 'Sex' is exactly
    'male' and 'female'.  If both are zero the function raises
    [ZeroDivisionError] (also when diseased rows exist under other
    labels).  Otherwise it answers 'men' exactly when [men > women], and
    the percentage is [(higher - lower) / higher * 100], which lies in
    [0, 100] and is 100 when the other sex has no diseased row. *)
Theorem who_suffers_result df sex l :
  get_column df "Sex" = Some sex ->
  get_column df "Disease" = Some (BoolSeries l) ->
  let men := diseased "male" sex l in
  let women := diseased "female" sex l in
  (men = 0%Z /\ women = 0%Z ->
   who_suffers_more_from_disease df = Raise ZeroDivisionError)
  /\ ((0 < men)%Z \/ (0 < women)%Z ->
      exists p,
        who_suffers_more_from_disease df
        = Ok (if (men >? women)%Z then "men" else "women", p)
        /\ p = (inject_Z (Z.max men women - Z.min men women)
                / inject_Z (Z.max men women) * 100)%Q
        /\ (0 <= p)%Q /\ (p <= 100)%Q
        /\ (Z.min men women = 0%Z -> (p == 100)%Q)).
Proof.
  intros Es Ed men women.
  assert (Hm : (0 <= men)%Z) by apply count_rows_nonneg.
  assert (Hw : (0 <= women)%Z) by apply count_rows_nonneg.
  split.
  - intros [Em Ew]. unfold who_suffers_more_from_disease.
    rewrite Es, Ed. cbn [is_bool_dtype negb eq_true].
    fold (diseased "male" sex l) (diseased "female" sex l).
    fold men women. now rewrite Em, Ew.
  - intros Hpos. unfold who_suffers_more_from_disease.
    rewrite Es, Ed. cbn [is_bool_dtype negb eq_true].
    fold (diseased "male" sex l) (diseased "female" sex l).
    fold men women. unfold truediv.
    destruct (Z.max men women =? 0)%Z eqn:E0; [apply Z.eqb_eq in E0; lia|].
    apply Z.eqb_neq in E0.
    destruct (percentage_in_range (Z.min men women) (Z.max men women))
      as [A B]; [lia..|].
    eexists. split; [now destruct (men >? women)%Z|].
    split; [reflexivity|]. split; [exact A|]. split; [exact B|].
    intros Emin. rewrite Emin, Z.sub_0_r.
    assert (Hne : ~ (inject_Z (Z.max men women) == 0)%Q).
    { intros E. apply E0. revert E. unfold Qeq. cbn. lia. }
    field. exact Hne.
Qed.

End DiseaseProperties.

Lemma who_suffers_validation_witness :
  let no_sex := [("Disease", Pd.FloatSeries [1; 0]%Q)] in
  let numeric := [("Sex", Pd.ObjectSeries ["male"; "female"]);
                  ("Disease", Pd.FloatSeries [1; 0]%Q)] in
  (Pd.get_column no_sex "Sex" = None \/ Pd.get_column no_sex "Disease" = None)
  /\ Pd.get_column numeric "Sex" = Some (Pd.ObjectSeries ["male"; "female"])
  /\ Pd.get_column numeric "Disease" = Some (Pd.FloatSeries [1; 0]%Q)
  /\ Pd.is_bool_dtype (Pd.FloatSeries [1; 0]%Q) = false
  /\ Exercise2.who_suffers_more_from_disease no_sex = Py.Raise Py.ValueError
  /\ Exercise2.who_suffers_more_from_disease numeric = Py.Raise Py.TypeError.
Proof.
  intros no_sex numeric.
  destruct (who_suffers_validation no_sex) as [Hmissing _].
  destruct (who_suffers_validation numeric) as [_ Hdtype].
  split; [now left|]. split; [reflexivity|]. split; [reflexivity|].
  split; [reflexivity|]. split.
  - apply Hmissing. now left.
  - apply (Hdtype (Pd.ObjectSeries ["male"; "female"])
                  (Pd.FloatSeries [1; 0]%Q)); reflexivity.
Defined.

Lemma who_suffers_result_witness :
  let sex := Pd.ObjectSeries ["male"; "female"; "male"; "female"] in
  let l := [true; false; true; false] in
  let other := Pd.ObjectSeries ["M"; "F"; "M"; "F"] in
  let relabelled := [("Sex", other); ("Disease", Pd.BoolSeries l)] in
  Pd.get_column ScriptExamples.patients "Sex" = Some sex
  /\ Pd.get_column ScriptExamples.patients "Disease" = Some (Pd.BoolSeries l)
  /\ ((0 < Spec.diseased "male" sex l)%Z
      \/ (0 < Spec.diseased "female" sex l)%Z)
  /\ Z.min (Spec.diseased "male" sex l) (Spec.diseased "female" sex l) = 0%Z
  /\ Pd.get_column relabelled "Sex" = Some other
  /\ Pd.get_column relabelled "Disease" = Some (Pd.BoolSeries l)
  /\ (Spec.diseased "male" other l = 0%Z
      /\ Spec.diseased "female" other l = 0%Z)
  /\ (exists p,
        Exercise2.who_suffers_more_from_disease ScriptExamples.patients
        = Py.Ok ("men", p) /\ (p == 100)%Q)
  /\ Exercise2.who_suffers_more_from_disease relabelled
     = Py.Raise Py.ZeroDivisionError.
Proof.
  intros sex l other relabelled.
  destruct (who_suffers_result ScriptExamples.patients sex l)
    as [_ Hok]; [reflexivity|reflexivity|].
  destruct (who_suffers_result relabelled other l)
    as [Hzero _]; [reflexivity|reflexivity|].
  split; [reflexivity|]. split; [reflexivity|].
  split; [left; reflexivity|]. split; [reflexivity|].
  split; [reflexivity|]. split; [reflexivity|].
  split; [split; reflexivity|]. split.
  - destruct Hok as (p & Hrun & _ & _ & _ & H100); [left; reflexivity|].
    exists p. split; [exact Hrun|apply H100; reflexivity].
  - apply Hzero. split; reflexivity.
Defined.

(** ** exercise2.py: the charts *)

Section ChartFacts.
Context `{Io.Matplotlib}.
Import Py Pd Io Exercise2Charts.

Lemma take_where_In {A} (mask : list bool) (l : list A) x :
  In x (take_where mask l)
  <-> exists i, mask !! i = Some true /\ l !! i = Some x.
Proof.
  revert l. induction mask as [|b mask IH]; intros l.
  - cbn. split; [contradiction|]. intros (i & Hi & _). discriminate.
  - destruct l as [|y l].
    + cbn. split; [contradiction|].
      intros (i & _ & Hi). discriminate.
    + cbn [take_where]. destruct b.
      * cbn [In]. rewrite IH. split.
        -- intros [->|(i & Hm & Hl)]; [now exists 0|now exists (S i)].
        -- intros ([|i] & Hm & Hl); cbn in Hm, Hl.
           ++ left. congruence.
           ++ right. now exists i.
      * rewrite IH. split.
        -- intros (i & Hm & Hl). now exists (S i).
        -- intros ([|i] & Hm & Hl); cbn in Hm, Hl; [discriminate|].
           now exists i.
Qed.

Lemma take_where_length {A} (mask : list bool) (l : list A) :
  length mask = length l ->
  length (take_where mask l) = length (List.filter (fun b : bool => b) mask).
Proof.
  revert l. induction mask as [|b mask IH]; intros [|y l] Hlen;
    try discriminate; [reflexivity|].
  cbn [take_where List.filter]. injection Hlen as Hlen.
  destruct b; cbn [length]; now rewrite IH.
Qed.

Lemma take_where_partition {A} (mask : list bool) (l : list A) :
  length mask = length l ->
  Permutation (take_where (map negb mask) l ++ take_where mask l) l.
Proof.
  revert l. induction mask as [|b mask IH]; intros [|y l] Hlen;
    try discriminate; [reflexivity|].
  injection Hlen as Hlen. cbn [map take_where]. destruct b; cbn [negb].
  - rewrite <- Permutation_middle. constructor. now apply IH.
  - cbn [app]. constructor. now apply IH.
Qed.

Lemma get_column_filter_rows mask df name :
  get_column (filter_rows mask df) name
  = option_map (boolean_index mask) (get_column df name).
Proof.
  induction df as [|[c s] df IH]; [reflexivity|].
  cbn [filter_rows map get_column fst snd].
  destruct (String.eqb c name); [reflexivity|exact IH].
Qed.

Lemma masked_column_done df mask name s w :
  get_column df name = Some s ->
  masked_column df mask name w = (Done (boolean_index mask s), w).
Proof.
  intros E. unfold masked_column.
  now rewrite get_column_filter_rows, E.
Qed.

Lemma io_plt_step {B} call (k : unit -> M B) st tr :
  plt_fails tr call = None ->
  Io.bind (plt call) k (mkWorld st tr)
  = k tt (mkWorld st (tr ++ [Plotted call])).
Proof.
  intros E. unfold Io.bind, plt. cbn [py trace]. now rewrite E.
Qed.

(** X14. The histogram of exercise2.py raises [ValueError], before
    anything is drawn, when 'Age' or 'Disease' is missing.  On a frame
    with a numeric 'Age' and a boolean 'Disease' (and a library in which
    no call fails) it draws one histogram in 10 bins whose data are the
    ages of exactly the rows that have the disease, one per such row. *)
Theorem chart_histogram_of_diseased_ages df w :
  (get_column df "Age" = None \/ get_column df "Disease" = None ->
   visualise_histogram df w = (Failed (Python ValueError), w))
  /\ (forall ages l,
        get_column df "Age" = Some (FloatSeries ages) ->
        get_column df "Disease" = Some (BoolSeries l) ->
        length l = length ages ->
        (forall t c, plt_fails t c = None) ->
        exists xs,
          visualise_histogram df w
          = (Done tt,
             mkWorld (py w)
               (trace w
                ++ [Plotted (Title "Age Distribution of Patients with Heart Disease");
                    Plotted (XLabel "Age");
                    Plotted (YLabel "Frequency");
                    Plotted (Hist (FloatSeries xs) 10 [("edgecolor", "black")]);
                    Plotted Show]))
          /\ Z.of_nat (length xs) = count_rows l
          /\ (forall x, In x xs <->
                exists i, l !! i = Some true /\ ages !! i = Some x)).
Proof.
  destruct w as [st tr]. cbn [py trace]. split.
  - intros [E|E]; unfold visualise_histogram; rewrite E;
      [reflexivity|now destruct (get_column df "Age")].
  - intros ages l Ea Ed Hlen Hplt.
    exists (take_where l ages). split; [|split].
    + unfold visualise_histogram. rewrite Ea, Ed. cbn [eq_true].
      rewrite (io_bind_done _ _ _ _ _ (masked_column_done _ _ _ _ _ Ea)).
      cbn [boolean_index].
      do 4 (rewrite io_plt_step by apply Hplt).
      rewrite (plt_done _ _ _ (Hplt _ _)).
      now rewrite <- !app_assoc.
    + unfold count_rows. now rewrite take_where_length.
    + intros x. apply take_where_In.
Qed.

(** X15. The boxplot of exercise2.py raises [ValueError], before anything
    is drawn, when 'Maximum heart rate achieved' or 'Disease' is missing.
    On a frame with a numeric rate column and a boolean 'Disease' (and a
    library in which no call fails) it draws two boxes, 'No Disease'
    first, and every row's rate goes into exactly one of them. *)
Theorem chart_boxplot_partitions_rows df w :
  (get_column df "Maximum heart rate achieved" = None
   \/ get_column df "Disease" = None ->
   visualise_boxplot df w = (Failed (Python ValueError), w))
  /\ (forall rates l,
        get_column df "Maximum heart rate achieved" = Some (FloatSeries rates) ->
        get_column df "Disease" = Some (BoolSeries l) ->
        length l = length rates ->
        (forall t c, plt_fails t c = None) ->
        exists without with_disease,
          visualise_boxplot df w
          = (Done tt,
             mkWorld (py w)
               (trace w
                ++ [Plotted (Boxplot [FloatSeries without;
                                      FloatSeries with_disease]
                               ["No Disease"; "Disease"]
                               [("patch_artist", "True");
                                ("boxprops", "facecolor=skyblue, color=black");
                                ("medianprops", "color=red")]);
                    Plotted (Title "Maximum Heart Rate Achieved by Disease Presence");
                    Plotted (XLabel "Disease Presence");
                    Plotted (YLabel "Maximum Heart Rate Achieved (bpm)");
                    Plotted (Grid [("axis", "y"); ("linestyle", "--");
                                   ("alpha", "0.7")]);
                    Plotted Show]))
          /\ Permutation (without ++ with_disease) rates).
Proof.
  destruct w as [st tr]. cbn [py trace]. split.
  - intros [E|E]; unfold visualise_boxplot; cbn [require_columns];
      rewrite E; [reflexivity|].
    now destruct (get_column df "Maximum heart rate achieved").
  - intros rates l Er Ed Hlen Hplt.
    exists (take_where (map negb l) rates), (take_where l rates).
    split; [|now apply take_where_partition].
    unfold visualise_boxplot. cbn [require_columns]. rewrite Er, Ed.
    rewrite (io_bind_done _ _ (mkWorld st tr) tt (mkWorld st tr)) by reflexivity.
    cbn [eq_true eq_false].
    rewrite (io_bind_done _ _ _ _ _ (masked_column_done _ _ _ _ _ Er)).
    rewrite (io_bind_done _ _ _ _ _ (masked_column_done _ _ _ _ _ Er)).
    cbn [boolean_index].
    do 5 (rewrite io_plt_step by apply Hplt).
    rewrite (plt_done _ _ _ (Hplt _ _)).
    now rewrite <- !app_assoc.
Qed.

End ChartFacts.

Lemma chart_histogram_of_diseased_ages_witness :
  let df := ScriptExamples.patients in
  let w := ScriptExamples.world_with Examples.sample8 in
  let ages := [63; 41; 57; 50]%Q in
  let l := [true; false; true; false] in
  let no_age := [("Disease", Pd.BoolSeries l)] in
  (Pd.get_column no_age "Age" = None \/ Pd.get_column no_age "Disease" = None)
  /\ Pd.get_column df "Age" = Some (Pd.FloatSeries ages)
  /\ Pd.get_column df "Disease" = Some (Pd.BoolSeries l)
  /\ length l = length ages
  /\ (forall t c, @Io.plt_fails ScriptExamples.quiet t c = None)
  /\ @Exercise2Charts.visualise_histogram ScriptExamples.quiet no_age w
     = (Io.Failed (Io.Python Py.ValueError), w)
  /\ exists xs res,
       @Exercise2Charts.visualise_histogram ScriptExamples.quiet df w
         = (Io.Done tt, res)
       /\ Z.of_nat (length xs) = Pd.count_rows l
       /\ (forall x, In x xs <->
             exists i, l !! i = Some true /\ ages !! i = Some x).
Proof.
  intros df w ages l no_age.
  assert (Hquiet : forall t c, @Io.plt_fails ScriptExamples.quiet t c = None)
    by reflexivity.
  destruct (@chart_histogram_of_diseased_ages ScriptExamples.quiet no_age w)
    as [Hmissing _].
  destruct (@chart_histogram_of_diseased_ages ScriptExamples.quiet df w)
    as [_ Hdraw].
  split; [now left|]. split; [reflexivity|]. split; [reflexivity|].
  split; [reflexivity|]. split; [exact Hquiet|].
  split; [apply Hmissing; now left|].
  destruct (Hdraw ages l) as (xs & Hrun & Hlen & Hin);
    [reflexivity|reflexivity|reflexivity|exact Hquiet|].
  exists xs. eexists. split; [exact Hrun|]. split; [exact Hlen|exact Hin].
Defined.

Lemma chart_boxplot_partitions_rows_witness :
  let df := ScriptExamples.patients in
  let w := ScriptExamples.world_with Examples.sample8 in
  let rates := [150; 172; 163; 158]%Q in
  let l := [true; false; true; false] in
  let no_rate := [("Disease", Pd.BoolSeries l)] in
  (Pd.get_column no_rate "Maximum heart rate achieved" = None
   \/ Pd.get_column no_rate "Disease" = None)
  /\ Pd.get_column df "Maximum heart rate achieved"
     = Some (Pd.FloatSeries rates)
  /\ Pd.get_column df "Disease" = Some (Pd.BoolSeries l)
  /\ length l = length rates
  /\ (forall t c, @Io.plt_fails ScriptExamples.quiet t c = None)
  /\ @Exercise2Charts.visualise_boxplot ScriptExamples.quiet no_rate w
     = (Io.Failed (Io.Python Py.ValueError), w)
  /\ exists without with_disease res,
       @Exercise2Charts.visualise_boxplot ScriptExamples.quiet df w
         = (Io.Done tt, res)
       /\ Permutation (without ++ with_disease) rates.
Proof.
  intros df w rates l no_rate.
  assert (Hquiet : forall t c, @Io.plt_fails ScriptExamples.quiet t c = None)
    by reflexivity.
  destruct (@chart_boxplot_partitions_rows ScriptExamples.quiet no_rate w)
    as [Hmissing _].
  destruct (@chart_boxplot_partitions_rows ScriptExamples.quiet df w)
    as [_ Hdraw].
  split; [now left|]. split; [reflexivity|]. split; [reflexivity|].
  split; [reflexivity|]. split; [exact Hquiet|].
  split; [apply Hmissing; now left|].
  destruct (Hdraw rates l) as (g0 & g1 & Hrun & Hperm);
    [reflexivity|reflexivity|reflexivity|exact Hquiet|].
  exists g0, g1. eexists. split; [exact Hrun|exact Hperm].
Defined.

(** ** exercise2.py: grouped tables *)

Section GroupFacts.
Import Pd PdGroup.

Lemma cell_eqb_refl x : cell_eqb x x = true.
Proof.
  destruct x; cbn.
  - now destruct b.
  - apply String.eqb_refl.
  - apply Qeq_bool_refl.
Qed.

Lemma cell_eqb_sym x y : cell_eqb x y = true -> cell_eqb y x = true.
Proof.
  destruct x, y; cbn; try discriminate.
  - destruct b, b0; auto.
  - now rewrite String.eqb_sym.
  - apply Qeq_bool_sym.
Qed.

Lemma cell_eqb_trans x y z :
  cell_eqb x y = true -> cell_eqb y z = true -> cell_eqb x z = true.
Proof.
  destruct x, y, z; cbn; try discriminate.
  - destruct b, b0, b1; auto.
  - intros H1 H2. apply String.eqb_eq in H1, H2. subst. apply String.eqb_refl.
  - apply Qeq_bool_trans.
Qed.


Lemma filter_perm_gen {A} (f : A -> bool) (l l' : list A) :
  Permutation l l' -> Permutation (List.filter f l) (List.filter f l').
Proof.
  induction 1; cbn; auto.
  - destruct (f x); auto.
  - destruct (f x), (f y); auto. apply perm_swap.
  - etransitivity; eauto.
Qed.

Section KeyFacts.
Context {K : Type} (eqb leb : K -> K -> bool).
Hypothesis eqb_refl : forall x, eqb x x = true.
Hypothesis eqb_sym : forall x y, eqb x y = true -> eqb y x = true.
Hypothesis eqb_trans :
  forall x y z, eqb x y = true -> eqb y z = true -> eqb x z = true.

Lemma insert_by_perm x l : Permutation (insert_by leb x l) (x :: l).
Proof.
  induction l as [|y l IH]; cbn; [reflexivity|].
  destruct (leb x y); [reflexivity|].
  rewrite IH. apply perm_swap.
Qed.

Lemma sort_by_perm l : Permutation (sort_by leb l) l.
Proof.
  induction l as [|x l IH]; cbn; [reflexivity|].
  rewrite insert_by_perm. now constructor.
Qed.




(** Every value of the list has a representative ... *)
Lemma distinct_covers l x :
  In x l -> exists k, In k (distinct eqb l) /\ eqb k x = true.
Proof.
  induction l as [|y l IH]; [contradiction|].
  intros [->|Hx]; cbn.
  - destruct (existsb (eqb x) (distinct eqb l)) eqn:E.
    + apply existsb_exists in E as (k & Hk & Hxk).
      exists k. split; [exact Hk|now apply eqb_sym].
    + exists x. split; [now left|apply eqb_refl].
  - destruct (IH Hx) as (k & Hk & Hkx).
    exists k. split; [|exact Hkx].
    destruct (existsb (eqb y) (distinct eqb l)); [exact Hk|now right].
Qed.

(** ... and only one. *)
Lemma distinct_at_most_one l x :
  length (List.filter (fun k => eqb k x) (distinct eqb l)) <= 1.
Proof.
  induction l as [|y l IH]; cbn; [lia|].
  destruct (existsb (eqb y) (distinct eqb l)) eqn:E; [exact IH|].
  cbn [List.filter]. destruct (eqb y x) eqn:Eyx; [|exact IH].
  cbn [length].
  destruct (List.filter (fun k => eqb k x) (distinct eqb l)) as [|k rest] eqn:Ef;
    [cbn; lia|].
  exfalso.
  assert (Hk : In k (List.filter (fun k => eqb k x) (distinct eqb l)))
    by (rewrite Ef; now left).
  apply filter_In in Hk as [Hk Hkx].
  assert (Hyk : eqb y k = true) by (eapply eqb_trans; eauto).
  assert (existsb (eqb y) (distinct eqb l) = true); [|congruence].
  apply existsb_exists. eauto.
Qed.

Lemma unique_sorted_one l x :
  In x l ->
  length (List.filter (fun k => eqb k x) (unique_sorted eqb leb l)) = 1.
Proof.
  intros Hx. unfold unique_sorted.
  rewrite (Permutation_length (filter_perm_gen _ _ _ (sort_by_perm _))).
  pose proof (distinct_at_most_one l x) as Hle.
  destruct (distinct_covers l x Hx) as (k & Hk & Hkx).
  assert (Hin : In k (List.filter (fun k => eqb k x) (distinct eqb l)))
    by (apply filter_In; auto).
  destruct (List.filter (fun k => eqb k x) (distinct eqb l));
    [contradiction|cbn in *; lia].
Qed.




End KeyFacts.

End GroupFacts.

Section TableFacts.
Import Pd PdGroup.

Lemma list_sum_map_add {K} (a b : K -> nat) (ks : list K) :
  list_sum (map (fun k => a k + b k) ks)
  = list_sum (map a ks) + list_sum (map b ks).
Proof.
  unfold list_sum. induction ks as [|k ks IH]; cbn in *; lia.
Qed.

Lemma list_sum_indicator {K} (g : K -> bool) (ks : list K) :
  list_sum (map (fun k => if g k then 1 else 0) ks)
  = length (List.filter g ks).
Proof.
  unfold list_sum. induction ks as [|k ks IH]; cbn in *; [reflexivity|].
  destruct (g k); cbn in *; lia.
Qed.

(** When every item falls under exactly one key, the sizes of the groups
    add up to the number of items. *)
Lemma partition_count {A K} (f : K -> A -> bool) (ks : list K) (items : list A) :
  (forall p, In p items -> length (List.filter (fun k => f k p) ks) = 1) ->
  list_sum (map (fun k => length (List.filter (f k) items)) ks)
  = length items.
Proof.
  induction items as [|p items IH]; intros Hone.
  - cbn [List.filter length]. unfold list_sum.
    clear Hone. induction ks as [|k ks IHk]; cbn in *; [reflexivity|exact IHk].
  - rewrite (map_ext _ (fun k => (if f k p then 1 else 0)
                                 + length (List.filter (f k) items))).
    2:{ intros k. cbn [List.filter]. now destruct (f k p). }
    rewrite list_sum_map_add, list_sum_indicator.
    rewrite (Hone p (or_introl eq_refl)), IH; [reflexivity|].
    intros q Hq. apply Hone. now right.
Qed.

Lemma filter_andb_length {A} (g h : A -> bool) (l : list A) :
  length (List.filter (fun p => g p && h p) l)
  = length (List.filter h (List.filter g l)).
Proof.
  induction l as [|x l IH]; cbn; [reflexivity|].
  destruct (g x); cbn; [|exact IH].
  destruct (h x); cbn; now rewrite IH.
Qed.

(** The entries of the frequency table add up to the number of rows. *)
Lemma crosstab_total a d :
  table_total (crosstab a d) = length (combine (cells a) (cells d)).
Proof.
  unfold table_total, crosstab.
  set (pairs := combine (cells a) (cells d)).
  set (rows := unique_sorted cell_eqb cell_leb (map fst pairs)).
  set (columns := unique_sorted cell_eqb cell_leb (map snd pairs)).
  rewrite map_map. cbn [snd].
  rewrite (map_ext _ (fun r => length (List.filter
                                (fun p => cell_eqb r (fst p)) pairs))).
  - apply (partition_count (fun r p => cell_eqb r (fst p))).
    intros p Hp.
    apply (unique_sorted_one cell_eqb cell_leb
             cell_eqb_refl cell_eqb_sym cell_eqb_trans).
    now apply in_map.
  - intros r. rewrite map_map. cbn [snd].
    rewrite (map_ext _ (fun c => length (List.filter
               (fun p => cell_eqb c (snd p))
               (List.filter (fun p => cell_eqb r (fst p)) pairs)))).
    2:{ intros c. unfold key_eqb. cbn [fst snd]. apply filter_andb_length. }
    apply (partition_count (fun c p => cell_eqb c (snd p))).
    intros p Hp. apply filter_In in Hp as [Hp _].
    apply (unique_sorted_one cell_eqb cell_leb
             cell_eqb_refl cell_eqb_sym cell_eqb_trans).
    now apply in_map.
Qed.

Lemma cells_length_bool l : length (cells (BoolSeries l)) = length l.
Proof. apply length_map. Qed.

End TableFacts.

Section TableProperties.
Context `{Io.Matplotlib}.
Import Py Pd PdGroup Io Exercise2Charts.

(** X16. [visualise_barchart] raises [ValueError], before anything is
    drawn, when 'Exercise induced angina' or 'Disease' is missing.
    Otherwise (with a library in which no call fails) it draws one bar
    chart of a frequency table; each entry of the table is the number of
    rows with that pair of values, and the entries add up to the number
    of rows of the frame: every row is counted once. *)
Theorem chart_barchart_counts_every_row df w :
  (get_column df "Exercise induced angina" = None
   \/ get_column df "Disease" = None ->
   visualise_barchart df w = (Failed (Python ValueError), w))
  /\ (forall angina disease,
        get_column df "Exercise induced angina" = Some angina ->
        get_column df "Disease" = Some disease ->
        length (cells angina) = length (cells disease) ->
        (forall t c, plt_fails t c = None) ->
        exists table,
          visualise_barchart df w
          = (Done tt,
             mkWorld (py w)
               (trace w
                ++ [Plotted (BarPlot table
                               [("kind", "bar"); ("edgecolor", "black");
                                ("color", "skyblue, orange")]);
                    Plotted (Title "Frequency of Exercise Induced angina");
                    Plotted (XLabel "Exercise induced angina");
                    Plotted (YLabel "Frequency");
                    Plotted (Legend "Disease" ["No Disease"; "Disease"]);
                    Plotted TightLayout;
                    Plotted Show]))
          /\ table_total table = length (cells angina)
          /\ (forall r row c n,
                In (r, row) table -> In (c, n) row ->
                n = length (List.filter (key_eqb (r, c))
                              (combine (cells angina) (cells disease))))).
Proof.
  destruct w as [st tr]. cbn [py trace]. split.
  - intros [E|E]; unfold visualise_barchart; rewrite E;
      [reflexivity|].
    now destruct (get_column df "Exercise induced angina").
  - intros angina disease Ea Ed Hlen Hplt.
    exists (crosstab angina disease). split; [|split].
    + unfold visualise_barchart. rewrite Ea, Ed.
      do 6 (rewrite io_plt_step by apply Hplt).
      rewrite (plt_done _ _ _ (Hplt _ _)).
      now rewrite <- !app_assoc.
    + rewrite crosstab_total, length_combine. lia.
    + intros r row c n Hrow Hc. unfold crosstab in Hrow.
      apply in_map_iff in Hrow as (r' & Erow & _).
      injection Erow as -> <-.
      apply in_map_iff in Hc as (c' & Ec & _).
      now injection Ec as -> <-.
Qed.






End TableProperties.


Lemma chart_barchart_counts_every_row_witness :
  let df := ScriptExamples.patients in
  let w := ScriptExamples.world_with Examples.sample8 in
  let angina := Pd.BoolSeries [false; false; true; false] in
  let disease := Pd.BoolSeries [true; false; true; false] in
  let no_angina := [("Disease", disease)] in
  (Pd.get_column no_angina "Exercise induced angina" = None
   \/ Pd.get_column no_angina "Disease" = None)
  /\ Pd.get_column df "Exercise induced angina" = Some angina
  /\ Pd.get_column df "Disease" = Some disease
  /\ length (PdGroup.cells angina) = length (PdGroup.cells disease)
  /\ (forall t c, @Io.plt_fails ScriptExamples.quiet t c = None)
  /\ @Exercise2Charts.visualise_barchart ScriptExamples.quiet no_angina w
     = (Io.Failed (Io.Python Py.ValueError), w)
  /\ exists table res,
       @Exercise2Charts.visualise_barchart ScriptExamples.quiet df w
         = (Io.Done tt, res)
       /\ PdGroup.table_total table = 4.
Proof.
  intros df w angina disease no_angina.
  assert (Hquiet : forall t c, @Io.plt_fails ScriptExamples.quiet t c = None)
    by reflexivity.
  destruct (@chart_barchart_counts_every_row ScriptExamples.quiet no_angina w)
    as [Hmissing _].
  destruct (@chart_barchart_counts_every_row ScriptExamples.quiet df w)
    as [_ Hdraw].
  split; [now left|]. split; [reflexivity|]. split; [reflexivity|].
  split; [reflexivity|]. split; [exact Hquiet|].
  split; [apply Hmissing; now left|].
  destruct (Hdraw angina disease) as (table & Hrun & Htotal & _);
    [reflexivity|reflexivity|reflexivity|exact Hquiet|].
  exists table. eexists. split; [exact Hrun|exact Htotal].
Defined.


(** ** exercise2.py: the driver *)

Section Driver2Facts.
Context `{Exercise2Script.Filesystem} `{Io.Matplotlib}.
Import Py Pd PdGroup Io Exercise2Charts Exercise2Script Conditions.

Lemma appends_ret {A} (a : A) : appends (Io.ret a).
Proof.
  intros w res w' E. inversion E. split; [reflexivity|].
  exists []. now rewrite app_nil_r.
Qed.

Lemma appends_fixed {A} (r : outcome A) : appends (fun w => (r, w)).
Proof.
  intros w res w' E. inversion E. split; [reflexivity|].
  exists []. now rewrite app_nil_r.
Qed.

Lemma appends_print args : appends (print args).
Proof.
  intros w res w' E. inversion E. split; [reflexivity|]. now eexists.
Qed.

Lemma appends_print_formatted parts : appends (print_formatted parts).
Proof.
  intros w res w' E. inversion E. split; [reflexivity|]. now eexists.
Qed.

Lemma appends_plt call : appends (plt call).
Proof.
  intros w res w' E. unfold plt in E.
  destruct (plt_fails (trace w) call); inversion E;
    (split; [reflexivity|now eexists]).
Qed.

Lemma appends_bind {A B} (m : Io.M A) (k : A -> Io.M B) :
  appends m -> (forall a, appends (k a)) -> appends (Io.bind m k).
Proof.
  intros Hm Hk w res w' E. unfold Io.bind in E.
  destruct (m w) as [[a|f|] w1] eqn:Em;
    destruct (Hm _ _ _ Em) as (Hpy & rest & Htr).
  - destruct (Hk a _ _ _ E) as (Hpy2 & rest2 & Htr2).
    split; [congruence|]. exists (rest ++ rest2).
    now rewrite Htr2, Htr, app_assoc.
  - inversion E; subst. split; [exact Hpy|eauto].
  - inversion E; subst. split; [exact Hpy|eauto].
Qed.

Lemma appends_masked_column df mask name : appends (masked_column df mask name).
Proof.
  unfold masked_column.
  destruct (get_column (filter_rows mask df) name);
    [apply appends_ret|apply appends_fixed].
Qed.

Lemma appends_require_columns df required :
  appends (require_columns df required).
Proof.
  induction required as [|c required IH]; cbn; [apply appends_ret|].
  destruct (get_column df c); [exact IH|apply appends_fixed].
Qed.

Ltac appends_step :=
  first
    [ apply appends_bind; [|intros ?]
    | apply appends_plt
    | apply appends_print
    | apply appends_print_formatted
    | apply appends_masked_column
    | apply appends_require_columns
    | apply appends_ret
    | apply appends_fixed ].

Lemma appends_histogram df : appends (visualise_histogram df).
Proof.
  unfold visualise_histogram.
  destruct (get_column df "Age"), (get_column df "Disease");
    try apply appends_fixed.
  repeat appends_step.
Qed.

Lemma appends_boxplot df : appends (visualise_boxplot df).
Proof.
  unfold visualise_boxplot. appends_step; [appends_step|].
  destruct (get_column df "Disease"); [|apply appends_fixed].
  repeat appends_step.
Qed.

Lemma appends_barchart df : appends (visualise_barchart df).
Proof.
  unfold visualise_barchart.
  destruct (get_column df "Exercise induced angina"),
    (get_column df "Disease"); try apply appends_fixed.
  repeat appends_step.
Qed.

Lemma appends_average df : appends (average_value_of_serum_cholesterol df).
Proof.
  unfold average_value_of_serum_cholesterol. appends_step; [appends_step|].
  destruct (get_column df "Sex"), (get_column df "Disease"),
    (get_column df "Serum cholesterol in mg/dl"); try apply appends_fixed.
  destruct (group_means _ _ _ _ _ _); [|apply appends_fixed].
  repeat appends_step.
Qed.

Lemma who_suffers_label df g p :
  Exercise2.who_suffers_more_from_disease df = Ok (g, p) ->
  g = "men" \/ g = "women".
Proof.
  unfold Exercise2.who_suffers_more_from_disease.
  destruct (get_column df "Sex"); [|discriminate].
  destruct (get_column df "Disease"); [|discriminate].
  destruct (negb _); [discriminate|].
  destruct (truediv _ _); try discriminate.
  destruct (_ >? _)%Z; intros E; inversion E; auto.
Qed.

End Driver2Facts.

Section Driver2Properties.
Context `{Exercise2Script.Filesystem} `{Io.Matplotlib}.
Import Py Pd PdGroup Io Exercise2Charts Exercise2Script Conditions.

(** X18. The driver of exercise2.py.  When the dataset file is missing,
    [load_data] prints one error line and the run stops with
    [FileNotFoundError]; nothing else is printed or drawn.  When
    [who_suffers_more_from_disease] raises on the loaded frame (a missing
    column, a non-boolean 'Disease', no diseased man or woman), the run
    stops with that exception and has produced no output at all.  When
    it returns, the first output is the sentence "Men ..." or
    "Women ..." with the percentage to two decimals; whatever happens
    afterwards only adds output after it. *)
Theorem driver2_outcomes w :
  (read_csv "heart_disease_dataset.csv" = CsvMissing ->
   main w
   = (Failed (Library "FileNotFoundError"),
      mkWorld (py w)
        (trace w
         ++ [Printed [PStr "Error: The file 'heart_disease_dataset.csv' was not found."]])))
  /\ (forall df e,
        read_csv "heart_disease_dataset.csv" = CsvFrame df ->
        Exercise2.who_suffers_more_from_disease df = Raise e ->
        main w = (Failed (Python e), w))
  /\ (forall df g p,
        read_csv "heart_disease_dataset.csv" = CsvFrame df ->
        Exercise2.who_suffers_more_from_disease df = Ok (g, p) ->
        exists res w' rest G,
          main w = (res, w')
          /\ py w' = py w
          /\ (g = "men" /\ G = "Men" \/ g = "women" /\ G = "Women")
          /\ trace w'
             = trace w
               ++ PrintedFormatted
                    [PStr G;
                     PStr " suffer more from heart disease by ";
                     PFixed p 2;
                     PStr (String.append "%."
                             (String (Ascii.ascii_of_nat 10) EmptyString))]
                  :: rest).
Proof.
  destruct w as [st tr]. cbn [py trace]. split; [|split].
  - intros E. unfold main, load_data. rewrite E. reflexivity.
  - intros df e E Ew. unfold main, load_data. rewrite E.
    unfold Io.bind, Io.ret, of_result. now rewrite Ew.
  - intros df g p E Ew.
    assert (Hrest : appends
              (Io.bind (average_value_of_serum_cholesterol df) (fun _ =>
               Io.bind (visualise_histogram df) (fun _ =>
               Io.bind (visualise_boxplot df) (fun _ =>
               visualise_barchart df))))).
    { apply appends_bind; [apply appends_average|intros _].
      apply appends_bind; [apply appends_histogram|intros _].
      apply appends_bind; [apply appends_boxplot|intros _].
      apply appends_barchart. }
    unfold main, load_data. rewrite E.
    unfold Io.bind at 1. unfold Io.ret at 1.
    unfold Io.bind at 1. unfold of_result. rewrite Ew. cbn [fst snd].
    unfold Io.bind at 1. unfold print_formatted. cbn [py trace].
    match goal with
    | |- context [Io.bind ?m ?k ?w0] =>
        destruct (Io.bind m k w0) as [res w'] eqn:Erun
    end.
    destruct (Hrest _ _ _ Erun) as (Hpy & rest & Htr). cbn [py trace] in *.
    exists res, w', rest, (capitalize g).
    split; [reflexivity|]. split; [exact Hpy|]. split.
    + destruct (who_suffers_label df g p Ew) as [->| ->];
        [left|right]; split; reflexivity.
    + rewrite Htr, <- app_assoc. reflexivity.
Qed.

End Driver2Properties.

Section Driver2Completes.
Context `{Exercise2Script.Filesystem} `{Io.Matplotlib}.
Import Py Pd PdGroup Io Exercise2Charts Exercise2Script Conditions Spec.

Hypothesis quiet : forall t c, plt_fails t c = None.

Lemma histogram_done df st tr age disease :
  get_column df "Age" = Some age ->
  get_column df "Disease" = Some disease ->
  exists evs,
    visualise_histogram df (mkWorld st tr) = (Done tt, mkWorld st (tr ++ evs))
    /\ length evs = 5.
Proof.
  intros Ea Ed. unfold visualise_histogram. rewrite Ea, Ed.
  rewrite (io_bind_done _ _ _ _ _ (masked_column_done _ _ _ _ _ Ea)).
  do 4 (rewrite io_plt_step by apply quiet).
  rewrite (plt_done _ _ _ (quiet _ _)).
  rewrite <- !app_assoc. cbn [app]. now eexists.
Qed.

Lemma boxplot_done df st tr rate disease :
  get_column df "Maximum heart rate achieved" = Some rate ->
  get_column df "Disease" = Some disease ->
  exists evs,
    visualise_boxplot df (mkWorld st tr) = (Done tt, mkWorld st (tr ++ evs))
    /\ length evs = 6.
Proof.
  intros Er Ed. unfold visualise_boxplot. cbn [require_columns].
  rewrite Er, Ed.
  rewrite (io_bind_done _ _ (mkWorld st tr) tt (mkWorld st tr)) by reflexivity.
  do 2 (rewrite (io_bind_done _ _ _ _ _ (masked_column_done _ _ _ _ _ Er))).
  do 5 (rewrite io_plt_step by apply quiet).
  rewrite (plt_done _ _ _ (quiet _ _)).
  rewrite <- !app_assoc. cbn [app]. now eexists.
Qed.

Lemma barchart_done df st tr angina disease :
  get_column df "Exercise induced angina" = Some angina ->
  get_column df "Disease" = Some disease ->
  exists evs,
    visualise_barchart df (mkWorld st tr) = (Done tt, mkWorld st (tr ++ evs))
    /\ length evs = 7.
Proof.
  intros Ea Ed. unfold visualise_barchart. rewrite Ea, Ed.
  do 6 (rewrite io_plt_step by apply quiet).
  rewrite (plt_done _ _ _ (quiet _ _)).
  rewrite <- !app_assoc. cbn [app]. now eexists.
Qed.

Lemma average_done df st tr sex disease cholesterol values :
  get_column df "Sex" = Some sex ->
  get_column df "Disease" = Some disease ->
  get_column df "Serum cholesterol in mg/dl" = Some cholesterol ->
  numeric_values cholesterol = Some values ->
  exists res evs,
    average_value_of_serum_cholesterol df (mkWorld st tr)
    = (Done res, mkWorld st (tr ++ evs))
    /\ length evs = 2.
Proof.
  intros Es Ed Ec Hnum. unfold average_value_of_serum_cholesterol.
  cbn [require_columns]. rewrite Es, Ed, Ec.
  rewrite (io_bind_done _ _ (mkWorld st tr) tt (mkWorld st tr)) by reflexivity.
  unfold group_means. rewrite Hnum.
  do 2 (rewrite (io_bind_done _ _ _ _ _ (print_done _ _ _))).
  unfold Io.ret. rewrite <- !app_assoc. cbn [app]. now eexists _, _.
Qed.

Lemma who_suffers_runs df sex l :
  get_column df "Sex" = Some sex ->
  get_column df "Disease" = Some (BoolSeries l) ->
  (0 < diseased "male" sex l)%Z \/ (0 < diseased "female" sex l)%Z ->
  exists g p, Exercise2.who_suffers_more_from_disease df = Ok (g, p).
Proof.
  intros Es Ed Hpos.
  assert (Hm : (0 <= diseased "male" sex l)%Z) by apply count_rows_nonneg.
  assert (Hw : (0 <= diseased "female" sex l)%Z) by apply count_rows_nonneg.
  unfold Exercise2.who_suffers_more_from_disease.
  rewrite Es, Ed. cbn [is_bool_dtype negb eq_true].
  fold (diseased "male" sex l) (diseased "female" sex l).
  unfold truediv.
  destruct (Z.max _ _ =? 0)%Z eqn:E0; [apply Z.eqb_eq in E0; lia|].
  destruct (_ >? _)%Z; now eexists _, _.
Qed.

(** X19. The driver of exercise2.py runs to its end when the dataset file
    parses to a frame that has the six columns the functions read, with
    a boolean 'Disease', a numeric or boolean cholesterol column and at
    least one diseased row labelled 'male' or 'female', and no plotting
    call fails.  It then produces 21 outputs (one sentence, the averages'
    header and table, and the 5, 6 and 7 calls of the three charts) and
    leaves the program state as it was. *)
Theorem driver2_completes w df sex l cholesterol values age rate angina :
  read_csv "heart_disease_dataset.csv" = CsvFrame df ->
  get_column df "Sex" = Some sex ->
  get_column df "Disease" = Some (BoolSeries l) ->
  get_column df "Serum cholesterol in mg/dl" = Some cholesterol ->
  numeric_values cholesterol = Some values ->
  get_column df "Age" = Some age ->
  get_column df "Maximum heart rate achieved" = Some rate ->
  get_column df "Exercise induced angina" = Some angina ->
  (0 < diseased "male" sex l)%Z \/ (0 < diseased "female" sex l)%Z ->
  exists evs,
    main w = (Done tt, mkWorld (py w) (trace w ++ evs))
    /\ length evs = 21.
Proof.
  intros Ef Es Ed Ec Hnum Ea Er Eg Hpos.
  destruct w as [st tr]. cbn [py trace].
  destruct (who_suffers_runs df sex l Es Ed Hpos) as (g & p & Hrun).
  unfold main, load_data. rewrite Ef.
  unfold Io.bind at 1. unfold Io.ret at 1.
  unfold Io.bind at 1. unfold of_result. rewrite Hrun. cbn [fst snd].
  unfold Io.bind at 1. unfold print_formatted. cbn [py trace].
  match goal with
  | |- context [Io.bind _ _ (mkWorld st ?t)] =>
      destruct (average_done df st t sex (BoolSeries l) cholesterol values
                  Es Ed Ec Hnum) as (res & ev1 & R1 & L1)
  end.
  rewrite (io_bind_done _ _ _ _ _ R1).
  match goal with
  | |- context [Io.bind _ _ (mkWorld st ?t)] =>
      destruct (histogram_done df st t age (BoolSeries l) Ea Ed)
        as (ev2 & R2 & L2)
  end.
  rewrite (io_bind_done _ _ _ _ _ R2).
  match goal with
  | |- context [Io.bind _ _ (mkWorld st ?t)] =>
      destruct (boxplot_done df st t rate (BoolSeries l) Er Ed)
        as (ev3 & R3 & L3)
  end.
  rewrite (io_bind_done _ _ _ _ _ R3).
  match goal with
  | |- context [visualise_barchart df (mkWorld st ?t)] =>
      destruct (barchart_done df st t angina (BoolSeries l) Eg Ed)
        as (ev4 & R4 & L4)
  end.
  rewrite R4.
  eexists. split.
  - rewrite <- !app_assoc. reflexivity.
  - rewrite !length_app, L1, L2, L3, L4. reflexivity.
Qed.

End Driver2Completes.

Lemma driver2_outcomes_witness :
  let w := ScriptExamples.world_with [] in
  let relabelled :=
    [("Sex", Pd.ObjectSeries ["M"; "F"]);
     ("Disease", Pd.BoolSeries [true; false])] in
  @Exercise2Script.main ScriptExamples.no_file ScriptExamples.quiet w
  = (Io.Failed (Io.Library "FileNotFoundError"),
     Io.mkWorld (Io.py w)
       [Io.Printed [Io.PStr "Error: The file 'heart_disease_dataset.csv' was not found."]])
  /\ @Exercise2Script.main (ScriptExamples.file_with relabelled)
       ScriptExamples.quiet w
     = (Io.Failed (Io.Python Py.ZeroDivisionError), w)
  /\ exists res w' rest p,
       @Exercise2Script.main (ScriptExamples.file_with ScriptExamples.patients)
         ScriptExamples.quiet w = (res, w')
       /\ Io.trace w'
          = Io.PrintedFormatted
              [Io.PStr "Men";
               Io.PStr " suffer more from heart disease by ";
               Io.PFixed p 2;
               Io.PStr (String.append "%."
                          (String (Ascii.ascii_of_nat 10) EmptyString))]
            :: rest.
Proof.
  intros w relabelled.
  destruct (@driver2_outcomes ScriptExamples.no_file ScriptExamples.quiet w)
    as [Hmissing _].
  destruct (@driver2_outcomes (ScriptExamples.file_with relabelled)
              ScriptExamples.quiet w) as (_ & Hraise & _).
  destruct (@driver2_outcomes (ScriptExamples.file_with ScriptExamples.patients)
              ScriptExamples.quiet w) as (_ & _ & Hok).
  split; [exact (Hmissing eq_refl)|].
  split; [exact (Hraise relabelled Py.ZeroDivisionError eq_refl eq_refl)|].
  destruct (Hok ScriptExamples.patients "men" _ eq_refl eq_refl)
    as (res & w' & rest & G & Hrun & _ & HG & Htr).
  exists res, w', rest. eexists. split; [exact Hrun|].
  destruct HG as [[_ ->]|[Hg _]]; [exact Htr|discriminate Hg].
Defined.

Lemma driver2_completes_witness :
  exists evs,
    @Exercise2Script.main (ScriptExamples.file_with ScriptExamples.patients)
      ScriptExamples.quiet (ScriptExamples.world_with [])
    = (Io.Done tt,
       Io.mkWorld (Io.py (ScriptExamples.world_with []))
         (Io.trace (ScriptExamples.world_with []) ++ evs))
    /\ length evs = 21.
Proof.
  apply (@driver2_completes (ScriptExamples.file_with ScriptExamples.patients)
           ScriptExamples.quiet (fun _ _ => eq_refl)
           (ScriptExamples.world_with []) ScriptExamples.patients
           (Pd.ObjectSeries ["male"; "female"; "male"; "female"])
           [true; false; true; false]
           (Pd.FloatSeries [233; 204; 286; 219]%Q)
           [233; 204; 286; 219]%Q
           (Pd.FloatSeries [63; 41; 57; 50]%Q)
           (Pd.FloatSeries [150; 172; 163; 158]%Q)
           (Pd.BoolSeries [false; false; true; false]));
    try reflexivity.
  left. reflexivity.
Defined.
